(** * sql2csv: a shallow embedding of [sql2csv.go] and its specification

    The Go package turns the rows of a [database/sql] cursor into CSV through
    an [encoding/csv] writer.  The embedding keeps the shape of the source:
    a [Converter] record, the per-cell stringification of the loop body, the
    row loop of [Converter.Write] with its six [return] statements, and the
    three wrappers [WriteString], [WriteFile] and [String].

    The collaborators the package imports are modelled at their interface:
    - [database/sql]: a cursor is the result of [ColumnTypes], the rows that
      [Next] will advance to (each with the outcome of [Scan]), and the
      value of [Err] once [Next] has returned false;
    - [encoding/csv]: a writer is its [Comma] and the sequence of operations
      performed on it; whether the machinery below it (bufio and the
      [io.Writer]) fails on an operation is an oracle over that history;
    - [github.com/google/uuid]: [FromBytes] and [String], written out;
    - [time] and floating-point formatting: abstract functions. *)

From Stdlib Require Import List String Ascii ZArith Bool Arith Lia DecimalString.
From Stdlib.Strings Require Import Byte.
Import ListNotations.
Open Scope string_scope.
Open Scope list_scope.

(** ** Errors *)

Inductive error : Type :=
| ErrInvalidDelim                    (* encoding/csv: errInvalidDelim *)
| ErrInvalidUUID (got : nat)         (* uuid: invalid UUID (got %d bytes) *)
| ErrScanArgs (expected got : nat)   (* database/sql: expected %d destination arguments in Scan, not %d *)
| ErrOther (msg : string).           (* an error of the driver, the io.Writer or the OS *)

(** ** Runes and the delimiter check of encoding/csv *)

Definition rune := Z.

Definition utf8_RuneError : rune := 65533%Z.

Definition utf8_ValidRune (r : rune) : bool :=
  if (0 <=? r)%Z && (r <? 55296)%Z then true
  else if (57343 <? r)%Z && (r <=? 1114111)%Z then true
  else false.

Definition validDelim (r : rune) : bool :=
  negb (r =? 0)%Z && negb (r =? 34)%Z && negb (r =? 13)%Z && negb (r =? 10)%Z
  && utf8_ValidRune r && negb (r =? utf8_RuneError)%Z.

(** ** The csv.Writer and the io.Writer below it *)

Inductive csvOp : Type :=
| OpWrite (record : list string)
| OpFlush.

(** The [io.Writer] handed to [Write], seen through the csv.Writer: given the
    operations that succeeded so far, does writing this record fail, and does
    flushing fail. *)
Record ioWriter : Type := mkIoWriter {
  write_err : list csvOp -> list string -> option error;
  flush_err : list csvOp -> option error
}.

Record csvWriter : Type := mkCsvWriter {
  Comma : rune;
  under : ioWriter;
  ops : list csvOp;          (* operations performed, oldest first *)
  werr : option error        (* what csvWriter.Error() would report *)
}.

Definition csv_NewWriter (w : ioWriter) : csvWriter :=
  mkCsvWriter 44%Z w [] None.

Definition set_Comma (cw : csvWriter) (r : rune) : csvWriter :=
  mkCsvWriter r (under cw) (ops cw) (werr cw).

(** [csvWriter.Write(record)], at the granularity of records: [ops] lists
    the records the writer has accepted, that is, the calls that returned
    nil.  A call that returns an error adds no record to [ops]; the bytes of
    that record that bufio may already hold are not part of the model.  The
    delimiter check comes before anything is written. *)
Definition csv_Write (cw : csvWriter) (record : list string)
  : option error * csvWriter :=
  if negb (validDelim (Comma cw)) then (Some ErrInvalidDelim, cw)
  else
    match write_err (under cw) (ops cw) record with
    | Some e => (Some e, mkCsvWriter (Comma cw) (under cw) (ops cw) (Some e))
    | None =>
        (None, mkCsvWriter (Comma cw) (under cw)
                 (ops cw ++ [OpWrite record]) (werr cw))
    end.

(** [Flush] returns nothing; a failure stays inside the writer. *)
Definition csv_Flush (cw : csvWriter) : csvWriter :=
  mkCsvWriter (Comma cw) (under cw) (ops cw ++ [OpFlush])
    (match flush_err (under cw) (ops cw) with
     | Some e => Some e
     | None => werr cw
     end).

(** Observations on a history: the records accepted, the records that
    were in the buffer when [Flush] was called (they have reached the
    [io.Writer] unless that flush failed), and the records written since
    the last [Flush]. *)
Fixpoint emitted (l : list csvOp) : list (list string) :=
  match l with
  | [] => []
  | OpWrite r :: l' => r :: emitted l'
  | OpFlush :: l' => emitted l'
  end.

Fixpoint split_flush (l : list csvOp) (done waiting : list (list string))
  : list (list string) * list (list string) :=
  match l with
  | [] => (done, waiting)
  | OpWrite r :: l' => split_flush l' done (waiting ++ [r])
  | OpFlush :: l' => split_flush l' (done ++ waiting) []
  end.

Definition delivered (l : list csvOp) : list (list string) :=
  fst (split_flush l [] []).

Definition buffered (l : list csvOp) : list (list string) :=
  snd (split_flush l [] []).

Fixpoint count_flush (l : list csvOp) : nat :=
  match l with
  | [] => 0
  | OpWrite _ :: l' => count_flush l'
  | OpFlush :: l' => S (count_flush l')
  end.

(** ** os.File *)

(** A file that [os.Create] has opened: the [io.Writer] it is, and what
    [Close] returns after the operations that reached it. *)
Record File : Type := mkFile {
  file_writer : ioWriter;
  file_Close : list csvOp -> option error
}.

(** ** Primitives that are outside the package *)

Class Externals : Type := {
  Time : Type;                                  (* time.Time *)
  Float64 : Type;                               (* float64 *)
  Time_Format : Time -> string -> string;       (* t.Format(layout) *)
  Time_String : Time -> string;                 (* t.String(), what %v prints *)
  FormatFloat : Float64 -> string;              (* what %v prints for a float64 *)
  (* the text a bytes.Buffer holds after these operations of a csv.Writer
     with this Comma *)
  Buffer_String : rune -> list csvOp -> string;
  os_Create : string -> error + File            (* os.Create(name) *)
}.

(** A [bytes.Buffer] never fails to take what is written to it. *)
Definition bytes_Buffer : ioWriter :=
  mkIoWriter (fun _ _ => None) (fun _ => None).

(** ** github.com/google/uuid *)

Definition hexdigit (n : N) : ascii :=
  match String.get (N.to_nat n) "0123456789abcdef" with
  | Some a => a
  | None => "0"%char
  end.

Fixpoint hex_Encode (l : list byte) : string :=
  match l with
  | [] => ""
  | b :: l' =>
      String (hexdigit (N.div (Byte.to_N b) 16))
        (String (hexdigit (N.modulo (Byte.to_N b) 16)) (hex_Encode l'))
  end.

Definition UUID := list byte.

Definition uuid_FromBytes (b : list byte) : error + UUID :=
  if Nat.eqb (List.length b) 16 then inr b else inl (ErrInvalidUUID (List.length b)).

Definition UUID_String (u : UUID) : string :=
  (hex_Encode (firstn 4 u) ++ "-" ++
   hex_Encode (firstn 2 (skipn 4 u)) ++ "-" ++
   hex_Encode (firstn 2 (skipn 6 u)) ++ "-" ++
   hex_Encode (firstn 2 (skipn 8 u)) ++ "-" ++
   hex_Encode (skipn 10 u))%string.

(** ** database/sql *)

Record ColumnType : Type := mkColumnType {
  Name : string;
  DatabaseTypeName : string
}.

Section Model.

Context {ext : Externals}.

(** What [Scan] stores behind an [*interface{}]: the driver values. *)
Inductive value : Type :=
| VNil
| VBytes (b : list byte)
| VTime (t : Time)
| VInt64 (n : Z)
| VFloat64 (f : Float64)
| VBool (b : bool)
| VString (s : string).

Record Rows : Type := mkRows {
  rows_ColumnTypes : error + list ColumnType;
  rows_pending : list (error + list value);
  rows_Err : option error
}.

(** [rows.Scan(dest...)] on the current row, with [count] destinations. *)
Definition Rows_Scan (cur : error + list value) (count : nat)
  : error + list value :=
  match cur with
  | inl e => inl e
  | inr vs =>
      if Nat.eqb (List.length vs) count then inr vs
      else inl (ErrScanArgs (List.length vs) count)
  end.

(** ** fmt.Sprintf("%v", value) *)

Fixpoint join_space (l : list string) : string :=
  match l with
  | [] => ""
  | [s] => s
  | s :: l' => (s ++ " " ++ join_space l')%string
  end.

Definition decimal (n : Z) : string := NilZero.string_of_int (Z.to_int n).

Definition Sprintf_v (v : value) : string :=
  match v with
  | VNil => "<nil>"
  | VBytes b =>
      ("[" ++ join_space (map (fun x => decimal (Z.of_N (Byte.to_N x))) b)
           ++ "]")%string
  | VTime t => Time_String t
  | VInt64 n => decimal n
  | VFloat64 f => FormatFloat f
  | VBool b => if b then "true" else "false"
  | VString s => s
  end.

(** ** The converter *)

Definition CsvRowPostProcessorFunc : Type :=
  list string -> list ColumnType -> bool * list string.

Record Converter : Type := mkConverter {
  Headers : list string;
  WriteHeaders : bool;
  TimeFormat : string;
  Delimiter : rune;
  rows : Rows;
  rowPostProcessor : option CsvRowPostProcessorFunc
}.

Definition NewConverter (r : Rows) : Converter :=
  mkConverter [] true "" 44%Z r None.

Definition SetRowPostProcessor (c : Converter)
  (processor : option CsvRowPostProcessorFunc) : Converter :=
  mkConverter (Headers c) (WriteHeaders c) (TimeFormat c) (Delimiter c)
    (rows c) processor.

(** The body of the inner loop of [Write] for one cell (lines 144-168). *)
Definition stringify (c : Converter) (column : ColumnType) (v : value)
  : error + string :=
  match v with
  | VBytes b =>
      if String.eqb (DatabaseTypeName column) "UNIQUEIDENTIFIER" then
        match uuid_FromBytes b with
        | inl err => inl err
        | inr u => inr (UUID_String u)
        end
      else inr (string_of_list_byte b)
  | _ =>
      let value :=
        if negb (String.eqb (TimeFormat c) "") then
          match v with
          | VTime timeValue => VString (Time_Format timeValue (TimeFormat c))
          | _ => v
          end
        else v in
      match value with
      | VNil => inr ""
      | _ => inr (Sprintf_v value)
      end
  end.

(** The inner loop over the columns; it returns at the first cell that
    fails.  [Scan] has filled exactly one value per column. *)
Fixpoint stringifyRow (c : Converter) (columns : list ColumnType)
  (values : list value) : error + list string :=
  match columns, values with
  | column :: columns', v :: values' =>
      match stringify c column v with
      | inl err => inl err
      | inr s =>
          match stringifyRow c columns' values' with
          | inl err => inl err
          | inr row => inr (s :: row)
          end
      end
  | _, _ => inr []
  end.

(** The [return] statement through which [Write] leaves. *)
Inductive exit_path : Type :=
| ExitColumnTypes   (* line 105 *)
| ExitHeaders       (* line 124 *)
| ExitScan          (* line 140 *)
| ExitUUID          (* line 149 *)
| ExitWriteRow      (* line 179 *)
| ExitEnd.          (* line 187 *)

(** What a call of [Write] has touched: its own copy of the receiver, the
    csv.Writer, the rows the cursor has not advanced to, and the rows with
    which the post-processor was called, oldest first. *)
Record state : Type := mkState {
  st_conv : Converter;
  st_csv : csvWriter;
  st_rest : list (error + list value);
  st_calls : list (list string)
}.

Definition set_csv (st : state) (cw : csvWriter) : state :=
  mkState (st_conv st) cw (st_rest st) (st_calls st).

(** [for rows.Next() { ... }] (lines 132-182).  [Some (x, err)] is a
    [return err] inside the loop, [None] is the loop running out of rows. *)
Fixpoint writeLoop (columns : list ColumnType)
  (pending : list (error + list value)) (st : state)
  : option (exit_path * error) * state :=
  match pending with
  | [] => (None, st)
  | cur :: rest =>
      let c := st_conv st in
      let st := mkState c (st_csv st) rest (st_calls st) in
      match Rows_Scan cur (List.length columns) with
      | inl err => (Some (ExitScan, err), st)
      | inr values =>
          match stringifyRow c columns values with
          | inl err => (Some (ExitUUID, err), st)
          | inr row =>
              let '(writeRow, row, st) :=
                match rowPostProcessor c with
                | Some f =>
                    let (b, r) := f row columns in
                    (b, r, mkState c (st_csv st) rest (st_calls st ++ [row]))
                | None => (true, row, st)
                end in
              if writeRow then
                match csv_Write (st_csv st) row with
                | (Some err, cw) => (Some (ExitWriteRow, err), set_csv st cw)
                | (None, cw) => writeLoop columns rest (set_csv st cw)
                end
              else writeLoop columns rest st
          end
      end
  end.

Record result : Type := mkResult {
  res_err : option error;
  res_exit : exit_path;
  res_state : state
}.

(** [func (c Converter) Write(writer io.Writer) error] *)
Definition Write (c : Converter) (writer : ioWriter) : result :=
  let rows := rows c in
  let csvWriter := csv_NewWriter writer in
  let csvWriter :=
    if negb (Delimiter c =? 0)%Z then set_Comma csvWriter (Delimiter c)
    else csvWriter in
  let st := mkState c csvWriter (rows_pending rows) [] in
  match rows_ColumnTypes rows with
  | inl err => mkResult (Some err) ExitColumnTypes st
  | inr columns =>
      let '(err, csvWriter) :=
        if WriteHeaders c then
          let headers :=
            if Nat.ltb 0 (List.length (Headers c)) then Headers c
            else map Name columns in
          csv_Write csvWriter headers
        else (None, csvWriter) in
      match err with
      | Some err => mkResult (Some err) ExitHeaders (set_csv st csvWriter)
      | None =>
          match writeLoop columns (rows_pending rows) (set_csv st csvWriter) with
          | (Some (x, err), st) => mkResult (Some err) x st
          | (None, st) =>
              let err := rows_Err rows in
              mkResult err ExitEnd (set_csv st (csv_Flush (st_csv st)))
          end
      end
  end.

(** [func (c Converter) WriteString() (string, error)] *)
Record stringResult : Type := mkStringResult {
  sr_text : string;
  sr_err : option error;
  sr_conv : Converter;       (* the receiver copy of WriteString at return *)
  sr_write : result          (* the call of Write it made *)
}.

Definition WriteString (c : Converter) : stringResult :=
  let buffer := bytes_Buffer in
  let r := Write c buffer in
  let cw := st_csv (res_state r) in
  mkStringResult (Buffer_String (Comma cw) (ops cw)) (res_err r) c r.

(** [func (c Converter) String() string] *)
Definition String_ (c : Converter) : string * Converter :=
  let r := WriteString c in
  match sr_err r with
  | Some _ => ("", c)
  | None => (sr_text r, c)
  end.

(** An open handle and the calls of [f.Close()] made on it. *)
Record fileHandle : Type := mkHandle {
  fh_file : File;
  fh_closes : nat
}.

Definition File_Close (f : fileHandle) (written : list csvOp)
  : option error * fileHandle :=
  (file_Close (fh_file f) written, mkHandle (fh_file f) (S (fh_closes f))).

(** [func (c Converter) WriteFile(csvFileName string) error] *)
Record fileResult : Type := mkFileResult {
  fr_err : option error;
  fr_file : option fileHandle;   (* the handle, when os.Create gave one *)
  fr_conv : Converter;           (* the receiver copy of WriteFile at return *)
  fr_write : option result       (* the call of Write it made, if any *)
}.

Definition WriteFile (c : Converter) (csvFileName : string) : fileResult :=
  match os_Create csvFileName with
  | inl err => mkFileResult (Some err) None c None
  | inr file =>
      let f := mkHandle file 0 in
      let r := Write c (file_writer file) in
      match res_err r with
      | Some err =>
          let '(_, f) := File_Close f (ops (st_csv (res_state r))) in
          mkFileResult (Some err) (Some f) c (Some r)
      | None =>
          let '(cerr, f) := File_Close f (ops (st_csv (res_state r))) in
          mkFileResult cerr (Some f) c (Some r)
      end
  end.

(** The package-level functions build a default converter around the rows. *)
Definition pkg_WriteFile (csvFileName : string) (r : Rows) : fileResult :=
  WriteFile (NewConverter r) csvFileName.

Definition pkg_WriteString (r : Rows) : stringResult :=
  WriteString (NewConverter r).

Definition pkg_Write (writer : ioWriter) (r : Rows) : result :=
  Write (NewConverter r) writer.

End Model.

(** ** Row-level description of what the loop produces *)

Section RowSpec.

Context {ext : Externals}.

(** The stringified row of one source row, when scanning and stringifying
    it succeed. *)
Definition stringified (c : Converter) (columns : list ColumnType)
  (cur : error + list value) : option (list string) :=
  match Rows_Scan cur (List.length columns) with
  | inl _ => None
  | inr values =>
      match stringifyRow c columns values with
      | inl _ => None
      | inr row => Some row
      end
  end.

(** What the post-processing step hands to the csv.Writer for a stringified
    row: [None] when the row is skipped. *)
Definition postProcessed (c : Converter) (columns : list ColumnType)
  (row : list string) : option (list string) :=
  match rowPostProcessor c with
  | Some f => if fst (f row columns) then Some (snd (f row columns)) else None
  | None => Some row
  end.

Definition rowOutput (c : Converter) (columns : list ColumnType)
  (cur : error + list value) : list (list string) :=
  match stringified c columns cur with
  | Some row =>
      match postProcessed c columns row with
      | Some r => [r]
      | None => []
      end
  | None => []
  end.

(** The data rows of a conversion in which nothing fails. *)
Definition dataRows (c : Converter) (columns : list ColumnType)
  (pending : list (error + list value)) : list (list string) :=
  flat_map (rowOutput c columns) pending.

Definition stringifiedRows (c : Converter) (columns : list ColumnType)
  (pending : list (error + list value)) : list (list string) :=
  flat_map (fun cur => match stringified c columns cur with
                       | Some row => [row]
                       | None => []
                       end) pending.

(** The rows handed to the post-processor while processing [pending]. *)
Definition processorCalls (c : Converter) (columns : list ColumnType)
  (pending : list (error + list value)) : list (list string) :=
  match rowPostProcessor c with
  | Some _ => stringifiedRows c columns pending
  | None => []
  end.

Definition prefix {A : Type} (l1 l2 : list A) : Prop :=
  exists t, l2 = l1 ++ t.

(** Why the loop returned at source row [cur], with the writer as [cw]. *)
Definition failure (c : Converter) (columns : list ColumnType)
  (cw : csvWriter) (cur : error + list value) (x : exit_path) (e : error)
  : Prop :=
  match x with
  | ExitScan => Rows_Scan cur (List.length columns) = inl e
  | ExitUUID =>
      exists values,
        Rows_Scan cur (List.length columns) = inr values /\
        stringifyRow c columns values = inl e
  | ExitWriteRow =>
      exists row r,
        stringified c columns cur = Some row /\
        postProcessed c columns row = Some r /\
        (validDelim (Comma cw) = false /\ e = ErrInvalidDelim \/
         validDelim (Comma cw) = true /\
         write_err (under cw) (ops cw) r = Some e)
  | _ => False
  end.

(** The comma the csv.Writer of a conversion uses. *)
Definition commaOf (c : Converter) : rune :=
  if (Delimiter c =? 0)%Z then 44%Z else Delimiter c.

(** The header rows of a conversion: none, or one. *)
Definition headerRows (c : Converter) (columns : list ColumnType)
  : list (list string) :=
  if WriteHeaders c then
    [match Headers c with
     | [] => map Name columns
     | _ :: _ => Headers c
     end]
  else [].

(** Why a [Write] on the csv.Writer [cw] failed. *)
Definition writeFailure (cw : csvWriter) (r : list string) (e : error) : Prop :=
  validDelim (Comma cw) = false /\ e = ErrInvalidDelim \/
  validDelim (Comma cw) = true /\ write_err (under cw) (ops cw) r = Some e.

(** Two csv.Writers that [Write] cannot tell apart: they may differ in how
    their flushes fare. *)
Definition same_writes (cw1 cw2 : csvWriter) : Prop :=
  Comma cw1 = Comma cw2 /\ ops cw1 = ops cw2 /\
  write_err (under cw1) = write_err (under cw2).

Definition same_state (st1 st2 : state) : Prop :=
  st_conv st1 = st_conv st2 /\ st_rest st1 = st_rest st2 /\
  st_calls st1 = st_calls st2 /\ same_writes (st_csv st1) (st_csv st2).

(** Two states from which the loop runs alike: the converters format time
    values alike and post-process every row alike, the cursors stand at the
    same row and the writers cannot be told apart. *)
Definition same_loop (columns : list ColumnType) (st1 st2 : state) : Prop :=
  TimeFormat (st_conv st1) = TimeFormat (st_conv st2) /\
  (forall row, postProcessed (st_conv st1) columns row =
               postProcessed (st_conv st2) columns row) /\
  st_rest st1 = st_rest st2 /\ same_writes (st_csv st1) (st_csv st2).

(** Two csv.Writers with the same comma and history over [io.Writer]s that
    fail on the same records. *)
Definition alike_writes (cw1 cw2 : csvWriter) : Prop :=
  Comma cw1 = Comma cw2 /\ ops cw1 = ops cw2 /\
  forall done record,
    write_err (under cw1) done record = write_err (under cw2) done record.

Definition alike_states (st1 st2 : state) : Prop :=
  st_conv st1 = st_conv st2 /\ st_rest st1 = st_rest st2 /\
  st_calls st1 = st_calls st2 /\ alike_writes (st_csv st1) (st_csv st2).

(** Every row of [l] scans and stringifies. *)
Definition rowsOK (c : Converter) (columns : list ColumnType)
  (l : list (error + list value)) : Prop :=
  Forall (fun cur => stringified c columns cur <> None) l.

(** What a post-processor [f] lets through of the rows it was called with. *)
Definition emitOf (f : CsvRowPostProcessorFunc) (columns : list ColumnType)
  (calls : list (list string)) : list (list string) :=
  map snd (filter fst (map (fun row => f row columns) calls)).

End RowSpec.

(** ** The fixtures of sql2csv_test.go

    The table [people] with its single row, read through a [bytes.Buffer];
    time values are seconds since the epoch and print the way the tests
    expect them. *)

Module Fixtures.

Definition nl : string := String (ascii_of_nat 10) "".

Fixpoint join_with (sep : string) (l : list string) : string :=
  match l with
  | [] => ""
  | [x] => x
  | x :: l' => (x ++ sep ++ join_with sep l')%string
  end.

(** The text of records whose fields need no quoting, once flushed. *)
Definition render (comma : rune) (l : list csvOp) : string :=
  String.concat ""
    (map (fun r =>
            (join_with (String (ascii_of_nat (Z.to_nat comma)) "") r ++ nl)%string)
         (delivered l)).

Definition test_Create (name : string) : error + File :=
  if String.eqb name "" then inl (ErrOther "open : no such file or directory")
  else inr (mkFile bytes_Buffer (fun _ => None)).

#[export] Instance testExt : Externals := {|
  Time := Z;
  Float64 := Z;
  Time_Format := fun _ layout =>
    if String.eqb layout "3:04PM" then "9:33PM" else layout;
  Time_String := fun _ => "1973-11-29 21:33:09 +0000 UTC";
  FormatFloat := fun _ => "0";
  Buffer_String := render;
  os_Create := test_Create
|}.

Definition people_columns : list ColumnType :=
  [mkColumnType "name" "STRING"; mkColumnType "age" "INT32";
   mkColumnType "bdate" "DATETIME"].

Definition alice : list value :=
  [VString "Alice"; VInt64 1; VTime 123456789%Z].

Definition people : Rows :=
  mkRows (inr people_columns) [inr alice] None.

(** [SELECT|people|name,nickname,age|] *)
Definition nick_columns : list ColumnType :=
  [mkColumnType "name" "STRING"; mkColumnType "nickname" "NULLSTRING";
   mkColumnType "age" "INT32"].

(** What the tests expect of the default conversion of [people]. *)
Definition expected : string :=
  ("name,age,bdate" ++ nl ++ "Alice,1,1973-11-29 21:33:09 +0000 UTC" ++ nl)%string.

Definition people_nick : Rows :=
  mkRows (inr nick_columns) [inr [VString "Alice"; VNil; VInt64 1]] None.

(** A cursor whose second row cannot be scanned. *)
Definition broken_second : Rows :=
  mkRows (inr people_columns)
    [inr alice; inl (ErrOther "sql: Rows are closed"); inr alice] None.


Definition guid_bytes : list byte :=
  [x00; x11; x22; x33; x44; x55; x66; x77;
   x88; x99; xaa; xbb; xcc; xdd; xee; xff].


(** An [io.Writer] on which every flush fails. *)
Definition flush_fails : ioWriter :=
  mkIoWriter (fun _ _ => None) (fun _ => Some (ErrOther "short write")).

(** The post-processors of the tests. *)
Definition keep_first : CsvRowPostProcessorFunc :=
  fun rows _ => (true, [hd "" rows; "X"; "X"]).

Definition omit_all : CsvRowPostProcessorFunc :=
  fun _ _ => (false, []).

(** A cursor whose column metadata cannot be read. *)
Definition no_metadata : Rows :=
  mkRows (inl (ErrOther "sql: Rows are closed")) [inr alice] None.

(** The table [people] read over a connection that breaks after its row. *)
Definition people_interrupted : Rows :=
  mkRows (inr people_columns) [inr alice]
    (Some (ErrOther "driver: bad connection")).

(** The table [people] without rows. *)
Definition nobody : Rows := mkRows (inr people_columns) [] None.

(** A cursor whose second row has one value for three columns. *)
Definition short_row : Rows :=
  mkRows (inr people_columns) [inr alice; inr [VString "Bob"]; inr alice] None.

(** An [io.Writer] that takes one record and fails on the next. *)
Definition full_after_one : ioWriter :=
  mkIoWriter
    (fun done _ =>
       match done with
       | [] => None
       | _ :: _ => Some (ErrOther "no space left on device")
       end)
    (fun _ => None).

(** An [io.Writer] that takes nothing. *)
Definition read_only : ioWriter :=
  mkIoWriter (fun _ _ => Some (ErrOther "write: bad file descriptor"))
    (fun _ => None).

(** A post-processor that returns every row as it is. *)
Definition pass_through : CsvRowPostProcessorFunc :=
  fun row _ => (true, row).

Definition with_headers (c : Converter) (h : list string) : Converter :=
  mkConverter h (WriteHeaders c) (TimeFormat c) (Delimiter c) (rows c)
    (rowPostProcessor c).

Definition with_WriteHeaders (c : Converter) (b : bool) : Converter :=
  mkConverter (Headers c) b (TimeFormat c) (Delimiter c) (rows c)
    (rowPostProcessor c).

Definition with_TimeFormat (c : Converter) (f : string) : Converter :=
  mkConverter (Headers c) (WriteHeaders c) f (Delimiter c) (rows c)
    (rowPostProcessor c).

Definition with_Delimiter (c : Converter) (d : rune) : Converter :=
  mkConverter (Headers c) (WriteHeaders c) (TimeFormat c) d (rows c)
    (rowPostProcessor c).

End Fixtures.

(** * Properties *)

Section Proofs.

Context {ext : Externals}.

(** ** Histories *)

Lemma emitted_app (l1 l2 : list csvOp) :
  emitted (l1 ++ l2) = emitted l1 ++ emitted l2.
Proof.
  induction l1 as [|[r|] l1 IH]; simpl; [reflexivity| |assumption].
  now rewrite IH.
Qed.

Lemma emitted_writes (rs : list (list string)) : emitted (map OpWrite rs) = rs.
Proof. induction rs as [|r rs IH]; simpl; [reflexivity|now rewrite IH]. Qed.

Lemma count_flush_app (l1 l2 : list csvOp) :
  count_flush (l1 ++ l2) = count_flush l1 + count_flush l2.
Proof.
  induction l1 as [|[r|] l1 IH]; simpl; [reflexivity|assumption|now rewrite IH].
Qed.

Lemma count_flush_writes (rs : list (list string)) :
  count_flush (map OpWrite rs) = 0.
Proof. induction rs as [|r rs IH]; simpl; [reflexivity|assumption]. Qed.

Lemma split_flush_writes (rs done waiting : list (list string)) :
  split_flush (map OpWrite rs) done waiting = (done, waiting ++ rs).
Proof.
  revert waiting; induction rs as [|r rs IH]; intros waiting; simpl.
  - now rewrite app_nil_r.
  - rewrite IH, <- app_assoc. reflexivity.
Qed.

Lemma split_flush_app (l1 l2 : list csvOp) (done waiting : list (list string)) :
  split_flush (l1 ++ l2) done waiting =
  split_flush l2 (fst (split_flush l1 done waiting))
    (snd (split_flush l1 done waiting)).
Proof.
  revert done waiting; induction l1 as [|[r|] l1 IH]; intros; simpl; auto.
Qed.

(** ** The csv.Writer *)

Lemma csv_Write_inv (cw cw' : csvWriter) (r : list string) (e : option error) :
  csv_Write cw r = (e, cw') ->
  Comma cw' = Comma cw /\ under cw' = under cw /\
  match e with
  | None =>
      validDelim (Comma cw) = true /\
      ops cw' = ops cw ++ [OpWrite r] /\ werr cw' = werr cw
  | Some err =>
      ops cw' = ops cw /\
      (validDelim (Comma cw) = false /\ err = ErrInvalidDelim \/
       validDelim (Comma cw) = true /\
       write_err (under cw) (ops cw) r = Some err)
  end.
Proof.
  unfold csv_Write. destruct (validDelim (Comma cw)) eqn:Hd; simpl.
  - destruct (write_err (under cw) (ops cw) r) eqn:Hw; intros H;
      inversion H; subst; simpl; auto 10.
  - intros H; inversion H; subst; auto 10.
Qed.

(** ** The row loop *)

Lemma processorCalls_app (c : Converter) (columns : list ColumnType)
  (l1 l2 : list (error + list value)) :
  processorCalls c columns (l1 ++ l2) =
  processorCalls c columns l1 ++ processorCalls c columns l2.
Proof.
  unfold processorCalls, stringifiedRows.
  destruct (rowPostProcessor c); [apply flat_map_app|reflexivity].
Qed.

Lemma dataRows_app (c : Converter) (columns : list ColumnType)
  (l1 l2 : list (error + list value)) :
  dataRows c columns (l1 ++ l2) = dataRows c columns l1 ++ dataRows c columns l2.
Proof. apply flat_map_app. Qed.

Lemma writeLoop_spec (columns : list ColumnType)
  (pending : list (error + list value)) :
  forall (st st' : state) (o : option (exit_path * error)),
    st_rest st = pending ->
    writeLoop columns pending st = (o, st') ->
    st_conv st' = st_conv st /\
    Comma (st_csv st') = Comma (st_csv st) /\
    under (st_csv st') = under (st_csv st) /\
    match o with
    | None =>
        st_rest st' = [] /\
        Forall (fun cur => stringified (st_conv st) columns cur <> None) pending /\
        ops (st_csv st') =
          ops (st_csv st) ++ map OpWrite (dataRows (st_conv st) columns pending) /\
        st_calls st' =
          st_calls st ++ processorCalls (st_conv st) columns pending /\
        werr (st_csv st') = werr (st_csv st)
    | Some (x, e) =>
        exists pre cur,
          pending = pre ++ cur :: st_rest st' /\
          Forall (fun cur => stringified (st_conv st) columns cur <> None) pre /\
          ops (st_csv st') =
            ops (st_csv st) ++ map OpWrite (dataRows (st_conv st) columns pre) /\
          st_calls st' =
            st_calls st ++ processorCalls (st_conv st) columns (pre ++ [cur]) /\
          failure (st_conv st) columns (st_csv st') cur x e
    end.
Proof.
  induction pending as [|cur rest IH]; intros st st' o Hrest Hloop.
  - simpl in Hloop. inversion Hloop; subst.
    repeat split; auto.
    + simpl. now rewrite app_nil_r.
    + unfold processorCalls; simpl.
      destruct (rowPostProcessor (st_conv st')); now rewrite app_nil_r.
  - simpl in Hloop.
    destruct (Rows_Scan cur (List.length columns)) as [serr|values] eqn:Hscan.
    { inversion Hloop; subst; simpl. repeat split; auto.
      exists [], cur. simpl. repeat split; auto.
      - now rewrite app_nil_r.
      - unfold processorCalls, stringifiedRows, stringified; simpl.
        rewrite Hscan.
        destruct (rowPostProcessor (st_conv st)); now rewrite app_nil_r. }
    destruct (stringifyRow (st_conv st) columns values) as [uerr|row] eqn:Hstr.
    { inversion Hloop; subst; simpl. repeat split; auto.
      exists [], cur. simpl. repeat split; auto.
      - now rewrite app_nil_r.
      - unfold processorCalls, stringifiedRows, stringified; simpl.
        rewrite Hscan, Hstr.
        destruct (rowPostProcessor (st_conv st)); now rewrite app_nil_r.
      - exists values. auto. }
    assert (Hsd : stringified (st_conv st) columns cur = Some row)
      by (unfold stringified; now rewrite Hscan, Hstr).
    assert (Hstep : forall st1,
      st_conv st1 = st_conv st -> st_rest st1 = rest ->
      Comma (st_csv st1) = Comma (st_csv st) ->
      under (st_csv st1) = under (st_csv st) ->
      werr (st_csv st1) = werr (st_csv st) ->
      ops (st_csv st1) =
        ops (st_csv st) ++ map OpWrite (rowOutput (st_conv st) columns cur) ->
      st_calls st1 =
        st_calls st ++ processorCalls (st_conv st) columns [cur] ->
      writeLoop columns rest st1 = (o, st') ->
      st_conv st' = st_conv st /\
      Comma (st_csv st') = Comma (st_csv st) /\
      under (st_csv st') = under (st_csv st) /\
      match o with
      | None =>
          st_rest st' = [] /\
          Forall (fun cur => stringified (st_conv st) columns cur <> None)
            (cur :: rest) /\
          ops (st_csv st') =
            ops (st_csv st) ++
            map OpWrite (dataRows (st_conv st) columns (cur :: rest)) /\
          st_calls st' =
            st_calls st ++ processorCalls (st_conv st) columns (cur :: rest) /\
          werr (st_csv st') = werr (st_csv st)
      | Some (x, e) =>
          exists pre cur0,
            cur :: rest = pre ++ cur0 :: st_rest st' /\
            Forall (fun cur => stringified (st_conv st) columns cur <> None) pre /\
            ops (st_csv st') =
              ops (st_csv st) ++ map OpWrite (dataRows (st_conv st) columns pre) /\
            st_calls st' =
              st_calls st ++
              processorCalls (st_conv st) columns (pre ++ [cur0]) /\
            failure (st_conv st) columns (st_csv st') cur0 x e
      end).
    { intros st1 Hc1 Hr1 Hcm1 Hu1 Hw1 Ho1 Hk1 Hl1.
      destruct (IH st1 st' o Hr1 Hl1) as (Hc & Hcm & Hu & Hrec).
      rewrite Hc1 in *.
      repeat split; try congruence.
      destruct o as [[x e]|].
      - destruct Hrec as (pre & cur0 & Hp & Hall & Hops & Hcalls & Hfail).
        exists (cur :: pre), cur0. repeat split.
        + simpl. now rewrite <- Hp.
        + constructor; [congruence|assumption].
        + rewrite Hops, Ho1, <- app_assoc, <- map_app. reflexivity.
        + rewrite Hcalls, Hk1, <- app_assoc.
          rewrite <- processorCalls_app. reflexivity.
        + assumption.
      - destruct Hrec as (Hre & Hall & Hops & Hcalls & Hwerr).
        repeat split.
        + assumption.
        + constructor; [congruence|assumption].
        + rewrite Hops, Ho1, <- app_assoc, <- map_app. reflexivity.
        + rewrite Hcalls, Hk1, <- app_assoc.
          change (cur :: rest) with ([cur] ++ rest).
          rewrite processorCalls_app. reflexivity.
        + congruence. }
    assert (Hfailcase : forall r cw e,
      postProcessed (st_conv st) columns row = Some r ->
      csv_Write (st_csv st) r = (Some e, cw) ->
      failure (st_conv st) columns cw cur ExitWriteRow e /\
      Comma cw = Comma (st_csv st) /\ under cw = under (st_csv st) /\
      ops cw = ops (st_csv st)).
    { intros r cw e Hpost Hw.
      destruct (csv_Write_inv _ _ _ _ Hw) as (Hcm & Hu & Hops & Hwhy).
      repeat split; auto.
      exists row, r. rewrite Hcm, Hu, Hops. auto. }
    destruct (rowPostProcessor (st_conv st)) as [f|] eqn:Hpp.
    + destruct (f row columns) as [b r] eqn:Hf.
      assert (Hcalls1 : processorCalls (st_conv st) columns [cur] = [row]).
      { unfold processorCalls, stringifiedRows. rewrite Hpp. simpl.
        now rewrite Hsd. }
      destruct b.
      * assert (Hpost : postProcessed (st_conv st) columns row = Some r)
          by (unfold postProcessed; now rewrite Hpp, Hf).
        simpl in Hloop.
        destruct (csv_Write (st_csv st) r) as [[werr1|] cw] eqn:Hw.
        -- inversion Hloop; subst; simpl.
          destruct (Hfailcase _ _ _ Hpost Hw) as (Hfl & Hcm & Hu & Hops).
          repeat split; auto.
          exists [], cur. simpl. repeat split; auto.
          ++ now rewrite Hops, app_nil_r.
          ++ now rewrite Hcalls1.
        -- destruct (csv_Write_inv _ _ _ _ Hw) as (Hcm & Hu & _ & Hops & Hwe).
          refine (Hstep _ _ _ _ _ _ _ _ Hloop); simpl; auto.
          ++ simpl. unfold rowOutput. now rewrite Hsd, Hpost.
          ++ simpl. now rewrite Hcalls1.
      * assert (Hpost : postProcessed (st_conv st) columns row = None)
          by (unfold postProcessed; now rewrite Hpp, Hf).
        refine (Hstep _ _ _ _ _ _ _ _ Hloop); simpl; auto.
        -- simpl. unfold rowOutput. rewrite Hsd, Hpost. simpl.
          now rewrite app_nil_r.
        -- simpl. now rewrite Hcalls1.
    + assert (Hpost : postProcessed (st_conv st) columns row = Some row)
        by (unfold postProcessed; now rewrite Hpp).
      assert (Hcalls1 : processorCalls (st_conv st) columns [cur] = [])
        by (unfold processorCalls; now rewrite Hpp).
      assert (Hcalls2 : processorCalls (st_conv st) columns ([] ++ [cur]) = [])
        by (unfold processorCalls; now rewrite Hpp).
      simpl in Hloop.
      destruct (csv_Write (st_csv st) row) as [[werr1|] cw] eqn:Hw.
      * inversion Hloop; subst; simpl.
        destruct (Hfailcase _ _ _ Hpost Hw) as (Hfl & Hcm & Hu & Hops).
        repeat split; auto.
        exists [], cur. simpl. repeat split; auto.
        -- now rewrite Hops, app_nil_r.
        -- simpl in Hcalls2. rewrite Hcalls2. now rewrite app_nil_r.
      * destruct (csv_Write_inv _ _ _ _ Hw) as (Hcm & Hu & _ & Hops & Hwe).
        refine (Hstep _ _ _ _ _ _ _ _ Hloop); simpl; auto.
        -- simpl. unfold rowOutput. now rewrite Hsd, Hpost.
        -- simpl. rewrite Hcalls1. now rewrite app_nil_r.
Qed.

(** ** [Write], one exit at a time *)

Lemma Write_spec (c : Converter) (writer : ioWriter) :
  let r := Write c writer in
  let st := res_state r in
  let pending := rows_pending (rows c) in
  st_conv st = c /\ under (st_csv st) = writer /\
  Comma (st_csv st) = commaOf c /\
  match rows_ColumnTypes (rows c) with
  | inl err =>
      res_exit r = ExitColumnTypes /\ res_err r = Some err /\
      ops (st_csv st) = [] /\ st_rest st = pending /\ st_calls st = []
  | inr columns =>
      match res_exit r with
      | ExitColumnTypes => False
      | ExitHeaders =>
          exists h e,
            headerRows c columns = [h] /\ res_err r = Some e /\
            ops (st_csv st) = [] /\ st_rest st = pending /\
            st_calls st = [] /\ writeFailure (st_csv st) h e
      | ExitEnd =>
          res_err r = rows_Err (rows c) /\ st_rest st = [] /\
          rowsOK c columns pending /\
          ops (st_csv st) =
            map OpWrite (headerRows c columns ++ dataRows c columns pending)
            ++ [OpFlush] /\
          st_calls st = processorCalls c columns pending /\
          werr (st_csv st) =
            flush_err writer
              (map OpWrite (headerRows c columns ++ dataRows c columns pending))
      | x =>
          exists e pre cur,
            res_err r = Some e /\
            pending = pre ++ cur :: st_rest st /\
            rowsOK c columns pre /\
            ops (st_csv st) =
              map OpWrite (headerRows c columns ++ dataRows c columns pre) /\
            st_calls st = processorCalls c columns (pre ++ [cur]) /\
            failure c columns (st_csv st) cur x e
      end
  end.
Proof.
  intros r st pending. subst r st pending. unfold Write.
  assert (Hcomma : Comma (if negb (Delimiter c =? 0)%Z
                          then set_Comma (csv_NewWriter writer) (Delimiter c)
                          else csv_NewWriter writer) = commaOf c).
  { unfold commaOf. destruct (Delimiter c =? 0)%Z; reflexivity. }
  assert (Hunder : under (if negb (Delimiter c =? 0)%Z
                          then set_Comma (csv_NewWriter writer) (Delimiter c)
                          else csv_NewWriter writer) = writer).
  { destruct (Delimiter c =? 0)%Z; reflexivity. }
  assert (Hops : ops (if negb (Delimiter c =? 0)%Z
                      then set_Comma (csv_NewWriter writer) (Delimiter c)
                      else csv_NewWriter writer) = []).
  { destruct (Delimiter c =? 0)%Z; reflexivity. }
  assert (Hwerr : werr (if negb (Delimiter c =? 0)%Z
                        then set_Comma (csv_NewWriter writer) (Delimiter c)
                        else csv_NewWriter writer) = None).
  { destruct (Delimiter c =? 0)%Z; reflexivity. }
  set (cw0 := if negb (Delimiter c =? 0)%Z
              then set_Comma (csv_NewWriter writer) (Delimiter c)
              else csv_NewWriter writer) in *.
  destruct (rows_ColumnTypes (rows c)) as [cerr|columns] eqn:Hct.
  { simpl. auto 10. }
  clearbody cw0.
  assert (Hhdr : exists herr cw1,
    (if WriteHeaders c
     then csv_Write cw0
            (if Nat.ltb 0 (List.length (Headers c)) then Headers c
             else map Name columns)
     else (None, cw0)) = (herr, cw1) /\
    Comma cw1 = Comma cw0 /\ under cw1 = under cw0 /\
    match herr with
    | None => ops cw1 = map OpWrite (headerRows c columns) /\ werr cw1 = None
    | Some e =>
        exists h, headerRows c columns = [h] /\ ops cw1 = [] /\
                  writeFailure cw1 h e
    end).
  { unfold headerRows. destruct (WriteHeaders c).
    - set (h := if Nat.ltb 0 (List.length (Headers c)) then Headers c
                else map Name columns).
      assert (Hh : match Headers c with
                   | [] => map Name columns
                   | _ :: _ => Headers c
                   end = h) by (subst h; destruct (Headers c); reflexivity).
      rewrite Hh.
      destruct (csv_Write cw0 h) as [herr cw1] eqn:Hw.
      exists herr, cw1.
      destruct (csv_Write_inv _ _ _ _ Hw) as (Hcm & Hu & Hrest).
      repeat split; auto.
      destruct herr as [e|].
      + destruct Hrest as (Ho & Hwhy). exists h. unfold writeFailure.
        rewrite Hcm, Hu, Ho. split; [reflexivity|]. split; [congruence|].
        rewrite Hops in *. assumption.
      + destruct Hrest as (_ & Ho & Hwe). rewrite Ho, Hops, Hwe. auto.
    - exists None, cw0. simpl. auto. }
  destruct Hhdr as (herr & cw1 & Hstep & Hcm1 & Hu1 & Hhdr).
  rewrite Hstep.
  destruct herr as [e|].
  { simpl. destruct Hhdr as (h & Hh & Ho & Hwf).
    repeat split; try congruence.
    exists h, e. auto 10. }
  destruct Hhdr as (Ho1 & Hwe1).
  destruct (writeLoop columns (rows_pending (rows c))
              (set_csv (mkState c cw0 (rows_pending (rows c)) []) cw1))
    as [o st'] eqn:Hloop.
  apply writeLoop_spec in Hloop; [|reflexivity].
  simpl in Hloop. destruct Hloop as (Hc & Hcm & Hu & Hloop).
  destruct o as [[x e]|].
  - simpl. destruct Hloop as (pre & cur & Hp & Hall & Ho & Hk & Hfail).
    rewrite Hc in *.
    repeat split; try congruence.
    assert (Hgoal : exists e0 pre0 cur0,
      Some e = Some e0 /\
      rows_pending (rows c) = pre0 ++ cur0 :: st_rest st' /\
      rowsOK c columns pre0 /\
      ops (st_csv st') =
        map OpWrite (headerRows c columns ++ dataRows c columns pre0) /\
      st_calls st' = processorCalls c columns (pre0 ++ [cur0]) /\
      failure c columns (st_csv st') cur0 x e0).
    { exists e, pre, cur. repeat split; auto.
      rewrite Ho, Ho1, map_app. reflexivity. }
    destruct x; simpl in Hfail; try contradiction; exact Hgoal.
  - simpl. destruct Hloop as (Hre & Hall & Ho & Hk & Hwe).
    rewrite Hc in *.
    assert (Hall_ops : ops (st_csv st') =
      map OpWrite (headerRows c columns ++
                   dataRows c columns (rows_pending (rows c))))
      by (rewrite Ho, Ho1, map_app; reflexivity).
    repeat split; try congruence; [exact Hall|].
    rewrite Hu, Hu1, Hunder, Hall_ops.
    destruct (flush_err writer _); congruence.
Qed.

(** The output of a conversion whose column metadata could be read: either
    the header write failed and nothing was written, or the header rows are
    followed by the data rows of the source rows [pre] that were processed
    before [Write] returned. *)
Lemma Write_out (c : Converter) (writer : ioWriter) (columns : list ColumnType) :
  rows_ColumnTypes (rows c) = inr columns ->
  let r := Write c writer in
  let st := res_state r in
  (res_exit r = ExitHeaders /\ WriteHeaders c = true /\
   ops (st_csv st) = [] /\ st_calls st = [] /\
   exists e, res_err r = Some e) \/
  (res_exit r <> ExitHeaders /\
   exists pre post,
     rows_pending (rows c) = pre ++ post /\
     rowsOK c columns pre /\
     emitted (ops (st_csv st)) = headerRows c columns ++ dataRows c columns pre /\
     count_flush (ops (st_csv st)) =
       match res_exit r with ExitEnd => 1 | _ => 0 end /\
     st_calls st = processorCalls c columns (pre ++ firstn 1 post) /\
     (res_exit r = ExitEnd -> post = [] /\ res_err r = rows_Err (rows c)) /\
     (res_exit r <> ExitEnd -> exists e, res_err r = Some e)).
Proof.
  intros Hct r st.
  destruct (Write_spec c writer) as (_ & _ & _ & H).
  fold r in H. fold st in H. rewrite Hct in H.
  assert (Hearly : forall x, res_exit r = x -> x <> ExitEnd -> x <> ExitHeaders ->
    (exists e pre cur,
       res_err r = Some e /\
       rows_pending (rows c) = pre ++ cur :: st_rest st /\
       rowsOK c columns pre /\
       ops (st_csv st) =
         map OpWrite (headerRows c columns ++ dataRows c columns pre) /\
       st_calls st = processorCalls c columns (pre ++ [cur]) /\
       failure c columns (st_csv st) cur x e) ->
    res_exit r <> ExitHeaders /\
    exists pre post,
      rows_pending (rows c) = pre ++ post /\
      rowsOK c columns pre /\
      emitted (ops (st_csv st)) = headerRows c columns ++ dataRows c columns pre /\
      count_flush (ops (st_csv st)) =
        match res_exit r with ExitEnd => 1 | _ => 0 end /\
      st_calls st = processorCalls c columns (pre ++ firstn 1 post) /\
      (res_exit r = ExitEnd -> post = [] /\ res_err r = rows_Err (rows c)) /\
      (res_exit r <> ExitEnd -> exists e, res_err r = Some e)).
  { intros x Hx Hne Hnh (e & pre & cur & He & Hp & Hok & Ho & Hk & _).
    split; [congruence|].
    exists pre, (cur :: st_rest st). rewrite Ho, emitted_writes, count_flush_writes.
    repeat split; auto.
    - rewrite Hx. destruct x; congruence.
    - congruence.
    - congruence.
    - intros _. now exists e. }
  destruct (res_exit r) eqn:Hx.
  - contradiction.
  - left. destruct H as (h & e & Hh & He & Ho & _ & Hk & _).
    repeat split; auto.
    + unfold headerRows in Hh. destruct (WriteHeaders c); [reflexivity|discriminate].
    + now exists e.
  - right. apply (Hearly ExitScan); auto; discriminate.
  - right. apply (Hearly ExitUUID); auto; discriminate.
  - right. apply (Hearly ExitWriteRow); auto; discriminate.
  - right. destruct H as (He & Hre & Hok & Ho & Hk & _).
    split; [discriminate|].
    exists (rows_pending (rows c)), []. rewrite Ho.
    rewrite emitted_app, emitted_writes, count_flush_app, count_flush_writes.
    simpl. rewrite !app_nil_r. repeat split; auto.
    intros Hn; now elim Hn.
Qed.

Lemma prefix_dataRows (c : Converter) (columns : list ColumnType)
  (pre post : list (error + list value)) :
  prefix (dataRows c columns pre) (dataRows c columns (pre ++ post)).
Proof. exists (dataRows c columns post). apply dataRows_app. Qed.

(** ** The header row *)

Lemma header_choice (c : Converter) (columns : list ColumnType) :
  (if Nat.ltb 0 (List.length (Headers c)) then Headers c
   else map Name columns) =
  match Headers c with
  | [] => map Name columns
  | _ :: _ => Headers c
  end.
Proof. destruct (Headers c); reflexivity. Qed.

(** With headers enabled [Write] leaves through the header return exactly
    when the csv.Writer refuses the header row. *)
Lemma header_exit (c : Converter) (writer : ioWriter)
  (columns : list ColumnType) :
  rows_ColumnTypes (rows c) = inr columns ->
  WriteHeaders c = true ->
  (res_exit (Write c writer) = ExitHeaders <->
   exists e,
     validDelim (commaOf c) = false /\ e = ErrInvalidDelim \/
     validDelim (commaOf c) = true /\
     write_err writer []
       match Headers c with
       | [] => map Name columns
       | _ :: _ => Headers c
       end = Some e).
Proof.
  intros Hct Hwh. split.
  - intros Hx.
    destruct (Write_spec c writer) as (_ & Hu & Hcm & H).
    cbv zeta in Hu, Hcm, H. rewrite Hct, Hx in H.
    destruct H as (h & e & Hh & _ & Ho & _ & _ & Hf).
    unfold headerRows in Hh. rewrite Hwh in Hh. inversion Hh; subst h.
    unfold writeFailure in Hf. rewrite Hcm, Hu, Ho in Hf. now exists e.
  - intros (e & Hf). unfold Write. rewrite Hct, Hwh, header_choice.
    assert (Hw : Comma (if negb (Delimiter c =? 0)%Z
                        then set_Comma (csv_NewWriter writer) (Delimiter c)
                        else csv_NewWriter writer) = commaOf c /\
                 under (if negb (Delimiter c =? 0)%Z
                        then set_Comma (csv_NewWriter writer) (Delimiter c)
                        else csv_NewWriter writer) = writer /\
                 ops (if negb (Delimiter c =? 0)%Z
                      then set_Comma (csv_NewWriter writer) (Delimiter c)
                      else csv_NewWriter writer) = []).
    { unfold commaOf. destruct (Delimiter c =? 0)%Z; simpl; auto. }
    destruct Hw as (Hcm & Hu & Ho).
    unfold csv_Write. rewrite Hcm, Hu, Ho.
    destruct Hf as [(Hv & _)|(Hv & Hw)].
    + rewrite Hv. reflexivity.
    + rewrite Hv, Hw. reflexivity.
Qed.

(** C1: [Write] emits its rows in this order.  When the column metadata
    cannot be read nothing is emitted.  Otherwise, with headers enabled,
    the header row is the override when it is not empty and the column
    names if it is; [Write] leaves through the header return exactly when
    the csv.Writer refuses that row, and then nothing was emitted; in every
    other case the output is that one header row followed by data rows
    only.  With headers disabled the output is the data rows alone, from
    the first on.  The data rows are those of the source rows [pre] read
    before [Write] returned: all of them when the loop ran to the end, and
    up to the row at which the loop returned otherwise. *)
Theorem Write_header_row (c : Converter) (writer : ioWriter) :
  let r := Write c writer in
  let st := res_state r in
  let out := emitted (ops (st_csv st)) in
  match rows_ColumnTypes (rows c) with
  | inl err =>
      res_err r = Some err /\ res_exit r = ExitColumnTypes /\ out = []
  | inr columns =>
      let h := match Headers c with
               | [] => map Name columns
               | _ :: _ => Headers c
               end in
      (WriteHeaders c = true ->
         (res_exit r = ExitHeaders <->
          exists e,
            validDelim (commaOf c) = false /\ e = ErrInvalidDelim \/
            validDelim (commaOf c) = true /\
            write_err writer [] h = Some e) /\
         (res_exit r = ExitHeaders ->
          out = [] /\ exists e, res_err r = Some e)) /\
      (WriteHeaders c = false -> res_exit r <> ExitHeaders) /\
      (res_exit r <> ExitHeaders ->
         exists pre post,
           rows_pending (rows c) = pre ++ post /\
           rowsOK c columns pre /\
           out = (if WriteHeaders c then [h] else []) ++
                 dataRows c columns pre /\
           (res_exit r = ExitEnd ->
              post = [] /\ res_err r = rows_Err (rows c)) /\
           (res_exit r <> ExitEnd ->
              exists cur e,
                post = cur :: st_rest st /\ res_err r = Some e /\
                failure c columns (st_csv st) cur (res_exit r) e))
  end.
Proof.
  cbv zeta.
  destruct (Write_spec c writer) as (_ & _ & _ & H). cbv zeta in H.
  destruct (rows_ColumnTypes (rows c)) as [err|columns] eqn:Hct.
  { destruct H as (Hx & He & Ho & _). rewrite Ho. auto. }
  split; [|split].
  - intros Hwh. split; [now apply header_exit|].
    intros Hx. rewrite Hx in H.
    destruct H as (h & e & _ & He & Ho & _). rewrite Ho.
    split; [reflexivity|now exists e].
  - intros Hwh Hx. rewrite Hx in H.
    destruct H as (h & e & Hh & _). unfold headerRows in Hh.
    rewrite Hwh in Hh. discriminate.
  - intros Hx.
    assert (Hearly : forall x, res_exit (Write c writer) = x ->
      x <> ExitEnd ->
      (exists e pre cur,
         res_err (Write c writer) = Some e /\
         rows_pending (rows c) = pre ++ cur :: st_rest (res_state (Write c writer)) /\
         rowsOK c columns pre /\
         ops (st_csv (res_state (Write c writer))) =
           map OpWrite (headerRows c columns ++ dataRows c columns pre) /\
         st_calls (res_state (Write c writer)) =
           processorCalls c columns (pre ++ [cur]) /\
         failure c columns (st_csv (res_state (Write c writer))) cur x e) ->
      exists pre post,
        rows_pending (rows c) = pre ++ post /\
        rowsOK c columns pre /\
        emitted (ops (st_csv (res_state (Write c writer)))) =
          (if WriteHeaders c
           then [match Headers c with
                 | [] => map Name columns
                 | _ :: _ => Headers c
                 end]
           else []) ++ dataRows c columns pre /\
        (x = ExitEnd -> post = [] /\
                        res_err (Write c writer) = rows_Err (rows c)) /\
        (x <> ExitEnd ->
           exists cur e,
             post = cur :: st_rest (res_state (Write c writer)) /\
             res_err (Write c writer) = Some e /\
             failure c columns (st_csv (res_state (Write c writer))) cur x e)).
    { intros x Hxx Hne (e & pre & cur & He & Hp & Hok & Ho & _ & Hf).
      exists pre, (cur :: st_rest (res_state (Write c writer))).
      rewrite Ho, emitted_writes. repeat split; auto.
      - contradiction.
      - contradiction.
      - intros _. now exists cur, e. }
    destruct (res_exit (Write c writer)) eqn:Hexit.
    + contradiction.
    + now elim Hx.
    + apply (Hearly ExitScan); auto; discriminate.
    + apply (Hearly ExitUUID); auto; discriminate.
    + apply (Hearly ExitWriteRow); auto; discriminate.
    + destruct H as (He & Hre & Hok & Ho & _).
      exists (rows_pending (rows c)), [].
      rewrite Ho, emitted_app, emitted_writes. simpl. rewrite !app_nil_r.
      repeat split; auto.
      intros Hn. now elim Hn.
Qed.

(** ** Cells *)

Lemma stringifyRow_nth (c : Converter) (columns : list ColumnType) :
  forall (values : list value) (row : list string) (i : nat)
         (column : ColumnType) (v : value),
    stringifyRow c columns values = inr row ->
    nth_error columns i = Some column ->
    nth_error values i = Some v ->
    exists s, stringify c column v = inr s /\ nth_error row i = Some s.
Proof.
  induction columns as [|col columns IH]; intros values row i column v Hrow Hc Hv.
  - destruct i; discriminate.
  - destruct values as [|v0 values]; [destruct i; discriminate|].
    simpl in Hrow.
    destruct (stringify c col v0) as [e|s0] eqn:Hs; [discriminate|].
    destruct (stringifyRow c columns values) as [e|row'] eqn:Hr; [discriminate|].
    inversion Hrow; subst row.
    destruct i as [|i]; simpl in *.
    + inversion Hc; inversion Hv; subst. now exists s0.
    + eapply IH; eauto.
Qed.

Lemma stringifyRow_length (c : Converter) (columns : list ColumnType) :
  forall (values : list value) (row : list string),
    stringifyRow c columns values = inr row ->
    List.length values = List.length columns ->
    List.length row = List.length columns.
Proof.
  induction columns as [|col columns IH]; intros values row Hrow Hlen.
  - simpl in Hrow. inversion Hrow. reflexivity.
  - destruct values as [|v0 values]; [discriminate|].
    simpl in Hrow.
    destruct (stringify c col v0) as [e|s0]; [discriminate|].
    destruct (stringifyRow c columns values) as [e|row'] eqn:Hr; [discriminate|].
    inversion Hrow; subst row. simpl. f_equal.
    apply (IH values); [assumption|]. simpl in Hlen. lia.
Qed.

Lemma stringify_error (c : Converter) (column : ColumnType) (v : value)
  (e : error) :
  stringify c column v = inl e ->
  exists b, v = VBytes b /\ DatabaseTypeName column = "UNIQUEIDENTIFIER" /\
            List.length b <> 16 /\ e = ErrInvalidUUID (List.length b).
Proof.
  destruct v; simpl;
    try (destruct (negb (TimeFormat c =? "")%string); discriminate).
  destruct (DatabaseTypeName column =? "UNIQUEIDENTIFIER")%string eqn:Hn;
    [|discriminate].
  unfold uuid_FromBytes.
  destruct (Nat.eqb (List.length b) 16) eqn:Hl; [discriminate|].
  intros H; inversion H.
  exists b. repeat split.
  - now apply String.eqb_eq.
  - now apply Nat.eqb_neq.
Qed.


Lemma Rows_Scan_inr (cur : error + list value) (count : nat)
  (values : list value) :
  Rows_Scan cur count = inr values ->
  cur = inr values /\ List.length values = count.
Proof.
  destruct cur as [e|vs]; simpl; [discriminate|].
  destruct (Nat.eqb (List.length vs) count) eqn:Hl; [|discriminate].
  intros H; inversion H; subst. split; [reflexivity|now apply Nat.eqb_eq].
Qed.

(** C2: a nil value is rendered as the empty string, whatever the column
    and the time format; so is the cell of every nil value of a row. *)
Theorem stringify_nil_empty (c : Converter) (column : ColumnType) :
  stringify c column VNil = inr "" /\
  forall (columns : list ColumnType) (values : list value)
         (row : list string) (i : nat),
    stringifyRow c columns values = inr row ->
    i < List.length columns ->
    nth_error values i = Some VNil ->
    nth_error row i = Some "".
Proof.
  assert (Hnil : forall col, stringify c col VNil = inr "").
  { intros col. unfold stringify.
    destruct (negb (TimeFormat c =? "")%string); reflexivity. }
  split; [apply Hnil|].
  intros columns values row i Hrow Hi Hv.
  destruct (nth_error columns i) as [col|] eqn:Hc.
  - destruct (stringifyRow_nth _ _ _ _ _ _ _ Hrow Hc Hv) as (s & Hs & Hn).
    rewrite Hnil in Hs. inversion Hs; subst. assumption.
  - apply nth_error_None in Hc. lia.
Qed.


(** ** Unique identifiers *)



(** ** The row post-processor *)

Lemma emitOf_app (f : CsvRowPostProcessorFunc) (columns : list ColumnType)
  (l1 l2 : list (list string)) :
  emitOf f columns (l1 ++ l2) = emitOf f columns l1 ++ emitOf f columns l2.
Proof. unfold emitOf. now rewrite map_app, filter_app, map_app. Qed.

Lemma stringifiedRows_app (c : Converter) (columns : list ColumnType)
  (l1 l2 : list (error + list value)) :
  stringifiedRows c columns (l1 ++ l2) =
  stringifiedRows c columns l1 ++ stringifiedRows c columns l2.
Proof. apply flat_map_app. Qed.

Lemma dataRows_processed (c : Converter) (columns : list ColumnType)
  (f : CsvRowPostProcessorFunc) (l : list (error + list value)) :
  rowPostProcessor c = Some f ->
  dataRows c columns l = emitOf f columns (stringifiedRows c columns l).
Proof.
  intros Hpp. induction l as [|cur l IH]; [reflexivity|].
  change (cur :: l) with ([cur] ++ l).
  rewrite dataRows_app, stringifiedRows_app, emitOf_app, IH. f_equal.
  unfold dataRows, stringifiedRows, rowOutput, postProcessed, emitOf. simpl.
  rewrite Hpp.
  destruct (stringified c columns cur) as [row|]; [|reflexivity].
  simpl. destruct (f row columns) as [b r]. destruct b; reflexivity.
Qed.

Lemma dataRows_unprocessed (c : Converter) (columns : list ColumnType)
  (l : list (error + list value)) :
  rowPostProcessor c = None ->
  dataRows c columns l = stringifiedRows c columns l.
Proof.
  intros Hpp. induction l as [|cur l IH]; [reflexivity|].
  change (cur :: l) with ([cur] ++ l).
  rewrite dataRows_app, stringifiedRows_app, IH. f_equal.
  unfold dataRows, stringifiedRows, rowOutput, postProcessed. simpl.
  rewrite Hpp.
  destruct (stringified c columns cur) as [row|]; reflexivity.
Qed.

Lemma stringifiedRows_length (c : Converter) (columns : list ColumnType)
  (l : list (error + list value)) :
  rowsOK c columns l ->
  List.length (stringifiedRows c columns l) = List.length l.
Proof.
  induction 1 as [|cur l Hcur _ IH]; [reflexivity|].
  change (cur :: l) with ([cur] ++ l).
  rewrite stringifiedRows_app, length_app, IH.
  unfold stringifiedRows. simpl.
  destruct (stringified c columns cur); [reflexivity|congruence].
Qed.

(** C5: with a post-processor installed it is called with the stringified
    rows of the source, in row order, once for each row the loop gets
    through; the data rows written are the rows it returned with the flag
    set, in that order, and nothing of a row it returned with the flag
    unset; with none installed the stringified rows are written as they
    are.  A conversion that leaves early has written a prefix of this. *)
Theorem post_processor_rows (c : Converter) (writer : ioWriter)
  (columns : list ColumnType) :
  rows_ColumnTypes (rows c) = inr columns ->
  let r := Write c writer in
  let st := res_state r in
  let out := emitted (ops (st_csv st)) in
  let pending := rows_pending (rows c) in
  (forall f, rowPostProcessor c = Some f ->
     prefix (st_calls st) (stringifiedRows c columns pending) /\
     (exists hdr data,
        out = hdr ++ data /\ prefix hdr (headerRows c columns) /\
        prefix data (emitOf f columns (st_calls st))) /\
     (res_exit r = ExitEnd ->
        st_calls st = stringifiedRows c columns pending /\
        List.length (st_calls st) = List.length pending /\
        out = headerRows c columns ++ emitOf f columns (st_calls st))) /\
  (rowPostProcessor c = None ->
     st_calls st = [] /\
     (exists hdr data,
        out = hdr ++ data /\ prefix hdr (headerRows c columns) /\
        prefix data (stringifiedRows c columns pending)) /\
     (res_exit r = ExitEnd ->
        List.length (stringifiedRows c columns pending) = List.length pending /\
        out = headerRows c columns ++ stringifiedRows c columns pending)).
Proof.
  intros Hct. cbv zeta.
  pose proof (Write_out c writer columns Hct) as H. cbv zeta in H.
  destruct H as [(Hx & Hwh & Ho & Hk & e & He)
                |(Hx & pre & post & Hp & Hok & Hout & _ & Hk & Hend & _)].
  - rewrite Ho, Hk. split.
    + intros f Hpp. repeat split;
        try (match goal with
             | H : res_exit _ = ExitEnd |- _ => rewrite Hx in H; discriminate H
             end).
      * now exists (stringifiedRows c columns (rows_pending (rows c))).
      * exists [], []. repeat split.
        -- now exists (headerRows c columns).
        -- now exists (emitOf f columns []).
    + intros Hpp. repeat split;
        try (match goal with
             | H : res_exit _ = ExitEnd |- _ => rewrite Hx in H; discriminate H
             end).
      exists [], []. repeat split.
      * now exists (headerRows c columns).
      * now exists (stringifiedRows c columns (rows_pending (rows c))).
  - rewrite Hout, Hk, Hp. unfold processorCalls. split.
    + intros f Hpp. rewrite Hpp. repeat split.
      * exists (stringifiedRows c columns (skipn 1 post)).
        rewrite <- stringifiedRows_app, <- app_assoc, firstn_skipn.
        reflexivity.
      * exists (headerRows c columns), (dataRows c columns pre).
        repeat split.
        -- exists []. now rewrite app_nil_r.
        -- exists (emitOf f columns (stringifiedRows c columns (firstn 1 post))).
           rewrite stringifiedRows_app, emitOf_app. f_equal.
           symmetry. now apply dataRows_processed.
      * destruct (Hend H) as (Hpost & _). subst post. reflexivity.
      * destruct (Hend H) as (Hpost & _). subst post. simpl.
        rewrite !app_nil_r. now apply stringifiedRows_length.
      * destruct (Hend H) as (Hpost & _). subst post. simpl.
        rewrite !app_nil_r. f_equal. now apply dataRows_processed.
    + intros Hpp. rewrite Hpp. repeat split.
      * exists (headerRows c columns), (dataRows c columns pre).
        repeat split.
        -- exists []. now rewrite app_nil_r.
        -- exists (stringifiedRows c columns post).
           rewrite stringifiedRows_app. f_equal.
           symmetry. now apply dataRows_unprocessed.
      * destruct (Hend H) as (Hpost & _). subst post.
        rewrite !app_nil_r. now apply stringifiedRows_length.
      * destruct (Hend H) as (Hpost & _). subst post.
        rewrite !app_nil_r. f_equal. now apply dataRows_unprocessed.
Qed.

(** ** Exhaustion and flushing *)

Lemma delivered_flushed (rs : list (list string)) :
  delivered (map OpWrite rs ++ [OpFlush]) = rs /\
  buffered (map OpWrite rs ++ [OpFlush]) = [].
Proof.
  unfold delivered, buffered.
  rewrite split_flush_app, split_flush_writes. simpl. auto.
Qed.

(** C6: when the loop runs out of rows, [Write] returns what [rows.Err()]
    returns, the cursor is exhausted, and the single flush is the last
    operation on the writer, so that every record written is delivered and
    none is left in the buffer. *)
Theorem Write_exhausted (c : Converter) (writer : ioWriter) :
  let r := Write c writer in
  let l := ops (st_csv (res_state r)) in
  res_exit r = ExitEnd ->
  res_err r = rows_Err (rows c) /\
  st_rest (res_state r) = [] /\
  (exists before,
     l = before ++ [OpFlush] /\ count_flush before = 0 /\
     werr (st_csv (res_state r)) = flush_err writer before) /\
  delivered l = emitted l /\
  buffered l = [].
Proof.
  cbv zeta. intros Hx.
  destruct (Write_spec c writer) as (_ & _ & _ & H). cbv zeta in H.
  destruct (rows_ColumnTypes (rows c)) as [e|columns].
  - destruct H as (Hx' & _). rewrite Hx in Hx'. discriminate.
  - rewrite Hx in H. destruct H as (He & Hre & _ & Ho & _ & Hwe).
    rewrite Ho. repeat split; auto.
    + eexists. split; [reflexivity|]. split; [apply count_flush_writes|].
      exact Hwe.
    + rewrite emitted_app, emitted_writes. simpl. rewrite app_nil_r.
      apply delivered_flushed.
    + apply delivered_flushed.
Qed.

Lemma csv_Write_same (cw1 cw2 : csvWriter) (r : list string) :
  same_writes cw1 cw2 ->
  fst (csv_Write cw1 r) = fst (csv_Write cw2 r) /\
  same_writes (snd (csv_Write cw1 r)) (snd (csv_Write cw2 r)).
Proof.
  intros (Hc & Ho & Hw). unfold csv_Write, same_writes.
  rewrite Hc, Ho, Hw.
  destruct (validDelim (Comma cw2)); simpl; [|auto].
  destruct (write_err (under cw2) (ops cw2) r); simpl; auto.
Qed.

Lemma writeLoop_same (columns : list ColumnType)
  (pending : list (error + list value)) :
  forall st1 st2 : state,
    same_state st1 st2 ->
    fst (writeLoop columns pending st1) = fst (writeLoop columns pending st2) /\
    same_state (snd (writeLoop columns pending st1))
               (snd (writeLoop columns pending st2)).
Proof.
  induction pending as [|cur rest IH]; intros st1 st2 Hs.
  - simpl. auto.
  - destruct Hs as (Hc & Hr & Hk & Hw). simpl. rewrite Hc, Hk.
    destruct (Rows_Scan cur (List.length columns)) as [e|values].
    { simpl. unfold same_state. simpl. auto. }
    destruct (stringifyRow (st_conv st2) columns values) as [e|row].
    { simpl. unfold same_state. simpl. auto. }
    destruct (rowPostProcessor (st_conv st2)) as [f|].
    + destruct (f row columns) as [b r]. destruct b.
      * simpl.
        destruct (csv_Write_same _ _ r Hw) as (He & Hw').
        destruct (csv_Write (st_csv st1) r) as [o1 cw1].
        destruct (csv_Write (st_csv st2) r) as [o2 cw2].
        simpl in He, Hw'. subst o2.
        destruct o1 as [e|].
        -- simpl. unfold same_state. simpl. auto.
        -- apply IH. unfold same_state. simpl. auto.
      * apply IH. unfold same_state. simpl. auto.
    + simpl.
      destruct (csv_Write_same _ _ row Hw) as (He & Hw').
      destruct (csv_Write (st_csv st1) row) as [o1 cw1].
      destruct (csv_Write (st_csv st2) row) as [o2 cw2].
      simpl in He, Hw'. subst o2.
      destruct o1 as [e|].
      * simpl. unfold same_state. simpl. auto.
      * apply IH. unfold same_state. simpl. auto.
Qed.

Lemma Write_same (c : Converter) (w1 w2 : ioWriter) :
  write_err w1 = write_err w2 ->
  res_err (Write c w1) = res_err (Write c w2) /\
  res_exit (Write c w1) = res_exit (Write c w2) /\
  same_state (res_state (Write c w1)) (res_state (Write c w2)).
Proof.
  intros Hw. unfold Write.
  set (cw1 := if negb (Delimiter c =? 0)%Z
              then set_Comma (csv_NewWriter w1) (Delimiter c)
              else csv_NewWriter w1).
  set (cw2 := if negb (Delimiter c =? 0)%Z
              then set_Comma (csv_NewWriter w2) (Delimiter c)
              else csv_NewWriter w2).
  assert (Hs : same_writes cw1 cw2).
  { subst cw1 cw2. unfold same_writes.
    destruct (negb (Delimiter c =? 0)%Z); simpl; auto. }
  clearbody cw1 cw2.
  destruct (rows_ColumnTypes (rows c)) as [e|columns].
  { simpl. unfold same_state. simpl. auto 10. }
  assert (Hh : exists o cw1' cw2',
    (if WriteHeaders c
     then csv_Write cw1 (if Nat.ltb 0 (List.length (Headers c)) then Headers c
                         else map Name columns)
     else (None, cw1)) = (o, cw1') /\
    (if WriteHeaders c
     then csv_Write cw2 (if Nat.ltb 0 (List.length (Headers c)) then Headers c
                         else map Name columns)
     else (None, cw2)) = (o, cw2') /\
    same_writes cw1' cw2').
  { destruct (WriteHeaders c).
    - set (h := if Nat.ltb 0 (List.length (Headers c)) then Headers c
                else map Name columns).
      destruct (csv_Write_same _ _ h Hs) as (He & Hs').
      destruct (csv_Write cw1 h) as [o1 cw1'].
      destruct (csv_Write cw2 h) as [o2 cw2'].
      simpl in He, Hs'. subst o2. now exists o1, cw1', cw2'.
    - now exists None, cw1, cw2. }
  destruct Hh as (o & cw1' & cw2' & H1 & H2 & Hs').
  rewrite H1, H2.
  destruct o as [e|].
  { simpl. unfold same_state. simpl. auto 10. }
  set (st1 := set_csv (mkState c cw1 (rows_pending (rows c)) []) cw1').
  set (st2 := set_csv (mkState c cw2 (rows_pending (rows c)) []) cw2').
  assert (Hst : same_state st1 st2)
    by (subst st1 st2; unfold same_state; simpl; auto).
  destruct (writeLoop_same columns (rows_pending (rows c)) st1 st2 Hst)
    as (Ho & Hst').
  destruct (writeLoop columns (rows_pending (rows c)) st1) as [o1 st1'].
  destruct (writeLoop columns (rows_pending (rows c)) st2) as [o2 st2'].
  simpl in Ho, Hst'. subst o2.
  destruct o1 as [[x e]|]; simpl; [auto 10|].
  repeat split; try apply Hst'.
  destruct Hst' as (_ & _ & _ & _ & Hops & _). simpl. now rewrite Hops.
Qed.

(** C7, as the code has it: [Write] flushes the csv.Writer once, and only
    when the loop ran out of rows; every return inside the function leaves
    the writer unflushed.  How a flush fares changes neither the error
    [Write] returns nor the return it leaves through nor what it wrote. *)
Theorem flush_only_at_end (c : Converter) (writer : ioWriter) :
  let r := Write c writer in
  let l := ops (st_csv (res_state r)) in
  match res_exit r with
  | ExitEnd => exists before, l = before ++ [OpFlush] /\ count_flush before = 0
  | _ => count_flush l = 0
  end /\
  forall fe : list csvOp -> option error,
    let r' := Write c (mkIoWriter (write_err writer) fe) in
    res_err r' = res_err r /\ res_exit r' = res_exit r /\
    ops (st_csv (res_state r')) = ops (st_csv (res_state r)).
Proof.
  cbv zeta. split.
  - destruct (Write_spec c writer) as (_ & _ & _ & H). cbv zeta in H.
    destruct (rows_ColumnTypes (rows c)) as [e|columns] eqn:Hct.
    + destruct H as (Hx & _ & Ho & _). now rewrite Hx, Ho.
    + destruct (Write_out c writer columns Hct)
        as [(Hx & _ & Ho & _)|(_ & pre & post & _ & _ & _ & Hf & _)].
      * now rewrite Hx, Ho.
      * destruct (res_exit (Write c writer)); try exact Hf.
        destruct H as (_ & _ & _ & Ho & _).
        eexists. split; [exact Ho|apply count_flush_writes].
  - intros fe.
    destruct (Write_same c (mkIoWriter (write_err writer) fe) writer eq_refl)
      as (He & Hx & _ & _ & _ & _ & Ho & _).
    auto.
Qed.

(** ** Files *)

(** C8: a file that cannot be created is the error returned, and no
    conversion is started; a file that was created is closed exactly once
    whatever [Write] returns; the error of [Write] is the one returned when
    there is one, and the result of [Close] otherwise. *)
Theorem WriteFile_closes (c : Converter) (csvFileName : string) :
  let r := WriteFile c csvFileName in
  match os_Create csvFileName with
  | inl err => fr_err r = Some err /\ fr_file r = None /\ fr_write r = None
  | inr file =>
      let w := Write c (file_writer file) in
      fr_write r = Some w /\
      fr_file r = Some (mkHandle file 1) /\
      match res_err w with
      | Some err => fr_err r = Some err
      | None => fr_err r = file_Close file (ops (st_csv (res_state w)))
      end
  end.
Proof.
  cbv zeta. unfold WriteFile.
  destruct (os_Create csvFileName) as [err|file]; [auto|].
  destruct (res_err (Write c (file_writer file))); simpl; auto.
Qed.

(** ** Widths *)

Lemma stringified_length (c : Converter) (columns : list ColumnType)
  (cur : error + list value) (row : list string) :
  stringified c columns cur = Some row ->
  List.length row = List.length columns.
Proof.
  unfold stringified.
  destruct (Rows_Scan cur (List.length columns)) as [e|values] eqn:Hscan;
    [discriminate|].
  destruct (stringifyRow c columns values) as [e|row'] eqn:Hrow;
    [discriminate|].
  intros H; inversion H; subst row'.
  apply Rows_Scan_inr in Hscan. destruct Hscan as (_ & Hl).
  now apply (stringifyRow_length c columns values).
Qed.

Lemma stringifiedRows_width (c : Converter) (columns : list ColumnType)
  (l : list (error + list value)) :
  Forall (fun r => List.length r = List.length columns)
    (stringifiedRows c columns l).
Proof.
  induction l as [|cur l IH]; [constructor|].
  change (cur :: l) with ([cur] ++ l).
  rewrite stringifiedRows_app. apply Forall_app. split; [|assumption].
  unfold stringifiedRows. simpl.
  destruct (stringified c columns cur) as [row|] eqn:Hs; [|constructor].
  constructor; [|constructor]. now apply (stringified_length c columns cur).
Qed.

(** C9, as the code has it: the output is the header row, when headers are
    enabled and its write succeeds, followed by the data rows.  Without a
    post-processor every data row has one field per column, whether or not
    headers are enabled.  The header row, with or without a post-processor,
    has one field per column when it is taken from the column names, and as
    many fields as the override when there is one, whatever the number of
    columns: the two widths agree exactly when there is no override or the
    override has one name per column. *)
Theorem header_data_widths (c : Converter) (writer : ioWriter)
  (columns : list ColumnType) :
  rows_ColumnTypes (rows c) = inr columns ->
  let r := Write c writer in
  let h := match Headers c with
           | [] => map Name columns
           | _ :: _ => Headers c
           end in
  exists hdr data,
    emitted (ops (st_csv (res_state r))) = hdr ++ data /\
    (res_exit r = ExitHeaders -> hdr = [] /\ data = []) /\
    (res_exit r <> ExitHeaders -> hdr = if WriteHeaders c then [h] else []) /\
    (rowPostProcessor c = None ->
     Forall (fun row => List.length row = List.length columns) data) /\
    List.length h = match Headers c with
                    | [] => List.length columns
                    | _ :: _ => List.length (Headers c)
                    end /\
    (List.length h = List.length columns <->
     Headers c = [] \/ List.length (Headers c) = List.length columns).
Proof.
  intros Hct. cbv zeta.
  assert (Hlen : List.length match Headers c with
                             | [] => map Name columns
                             | _ :: _ => Headers c
                             end =
                 match Headers c with
                 | [] => List.length columns
                 | _ :: _ => List.length (Headers c)
                 end)
    by (destruct (Headers c); [apply length_map|reflexivity]).
  assert (Hiff : List.length match Headers c with
                             | [] => map Name columns
                             | _ :: _ => Headers c
                             end = List.length columns <->
                 Headers c = [] \/ List.length (Headers c) = List.length columns).
  { rewrite Hlen. destruct (Headers c) as [|x l].
    - split; auto.
    - split; [auto|]. intros [H|H]; [discriminate|exact H]. }
  destruct (Write_out c writer columns Hct)
    as [(Hx & _ & Ho & _)|(Hx & pre & post & _ & _ & Hout & _)].
  - exists [], []. rewrite Ho.
    split; [reflexivity|]. split; [auto|].
    split; [intros Hn; contradiction|].
    split; [intros _; constructor|].
    split; [exact Hlen|exact Hiff].
  - exists (headerRows c columns), (dataRows c columns pre).
    split; [exact Hout|].
    split; [intros Hx'; contradiction|].
    split; [intros _; reflexivity|].
    split; [|split; [exact Hlen|exact Hiff]].
    intros Hpp. rewrite (dataRows_unprocessed _ _ _ Hpp).
    apply stringifiedRows_width.
Qed.

(** ** The receiver *)

(** C10: each terminal operation returns with its copy of the converter
    as it received it, and so does the [Write] it calls. *)
Theorem terminal_operations_frame (c : Converter) (writer : ioWriter)
  (csvFileName : string) :
  st_conv (res_state (Write c writer)) = c /\
  sr_conv (WriteString c) = c /\
  st_conv (res_state (sr_write (WriteString c))) = c /\
  fr_conv (WriteFile c csvFileName) = c /\
  match fr_write (WriteFile c csvFileName) with
  | Some r => st_conv (res_state r) = c
  | None => True
  end /\
  snd (String_ c) = c.
Proof.
  assert (Hw : forall w, st_conv (res_state (Write c w)) = c)
    by (intros w; apply (Write_spec c w)).
  repeat split.
  - apply Hw.
  - unfold WriteString. simpl. apply Hw.
  - unfold WriteFile. destruct (os_Create csvFileName); [reflexivity|].
    destruct (res_err (Write c (file_writer f))); reflexivity.
  - unfold WriteFile. destruct (os_Create csvFileName); [exact I|].
    destruct (res_err (Write c (file_writer f))); simpl; apply Hw.
  - unfold String_. destruct (sr_err (WriteString c)); reflexivity.
Qed.

(** * Further properties of the package *)

(** ** The loop, one row at a time *)

Lemma writeLoop_cons (columns : list ColumnType) (cur : error + list value)
  (rest : list (error + list value)) (st : state) :
  writeLoop columns (cur :: rest) st =
  let c := st_conv st in
  match Rows_Scan cur (List.length columns) with
  | inl err =>
      (Some (ExitScan, err), mkState c (st_csv st) rest (st_calls st))
  | inr values =>
      match stringifyRow c columns values with
      | inl err =>
          (Some (ExitUUID, err), mkState c (st_csv st) rest (st_calls st))
      | inr row =>
          let calls := st_calls st ++ match rowPostProcessor c with
                                      | Some _ => [row]
                                      | None => []
                                      end in
          match postProcessed c columns row with
          | Some r =>
              match csv_Write (st_csv st) r with
              | (Some err, cw) =>
                  (Some (ExitWriteRow, err), mkState c cw rest calls)
              | (None, cw) => writeLoop columns rest (mkState c cw rest calls)
              end
          | None => writeLoop columns rest (mkState c (st_csv st) rest calls)
          end
      end
  end.
Proof.
  simpl. unfold postProcessed.
  destruct (Rows_Scan cur (List.length columns)) as [e|values]; [reflexivity|].
  destruct (stringifyRow (st_conv st) columns values) as [e|row]; [reflexivity|].
  destruct (rowPostProcessor (st_conv st)) as [f|].
  - destruct (f row columns) as [b r]. simpl. destruct b; [|reflexivity].
    destruct (csv_Write (st_csv st) r) as [[e|] cw]; reflexivity.
  - simpl. rewrite app_nil_r.
    destruct (csv_Write (st_csv st) row) as [[e|] cw]; reflexivity.
Qed.

Lemma stringify_TimeFormat (c1 c2 : Converter) (column : ColumnType)
  (v : value) :
  TimeFormat c1 = TimeFormat c2 ->
  stringify c1 column v = stringify c2 column v.
Proof. intros H. unfold stringify. now rewrite H. Qed.

Lemma stringifyRow_TimeFormat (c1 c2 : Converter) (columns : list ColumnType) :
  TimeFormat c1 = TimeFormat c2 ->
  forall values, stringifyRow c1 columns values = stringifyRow c2 columns values.
Proof.
  intros H. induction columns as [|col columns IH]; intros values.
  - reflexivity.
  - destruct values as [|v values]; [reflexivity|].
    simpl. rewrite (stringify_TimeFormat c1 c2 col v H), IH. reflexivity.
Qed.

Lemma writeLoop_congr (columns : list ColumnType)
  (pending : list (error + list value)) :
  forall st1 st2 : state,
    same_loop columns st1 st2 ->
    fst (writeLoop columns pending st1) = fst (writeLoop columns pending st2) /\
    same_loop columns (snd (writeLoop columns pending st1))
                      (snd (writeLoop columns pending st2)).
Proof.
  induction pending as [|cur rest IH]; intros st1 st2 Hs.
  - simpl. auto.
  - destruct Hs as (Ht & Hp & Hr & Hw).
    rewrite !writeLoop_cons. cbv zeta.
    destruct (Rows_Scan cur (List.length columns)) as [e|values].
    { simpl. unfold same_loop. simpl. auto. }
    rewrite (stringifyRow_TimeFormat _ _ columns Ht).
    destruct (stringifyRow (st_conv st2) columns values) as [e|row].
    { simpl. unfold same_loop. simpl. auto. }
    rewrite Hp.
    destruct (postProcessed (st_conv st2) columns row) as [r|].
    + destruct (csv_Write_same _ _ r Hw) as (He & Hw').
      destruct (csv_Write (st_csv st1) r) as [o1 cw1].
      destruct (csv_Write (st_csv st2) r) as [o2 cw2].
      simpl in He, Hw'. subst o2.
      destruct o1 as [e|].
      * simpl. unfold same_loop. simpl. auto.
      * apply IH. unfold same_loop. simpl. auto.
    + apply IH. unfold same_loop. simpl. auto.
Qed.

Lemma initial_writer (c : Converter) (writer : ioWriter) :
  let cw := if negb (Delimiter c =? 0)%Z
            then set_Comma (csv_NewWriter writer) (Delimiter c)
            else csv_NewWriter writer in
  Comma cw = commaOf c /\ under cw = writer /\ ops cw = [] /\ werr cw = None.
Proof.
  cbv zeta. unfold commaOf. destruct (Delimiter c =? 0)%Z; simpl; auto.
Qed.

(** Two conversions that differ only in what the loop cannot see run alike. *)
Lemma Write_congr (c1 c2 : Converter) (w1 w2 : ioWriter) :
  Headers c1 = Headers c2 -> WriteHeaders c1 = WriteHeaders c2 ->
  TimeFormat c1 = TimeFormat c2 -> rows c1 = rows c2 ->
  commaOf c1 = commaOf c2 ->
  (forall columns row,
     postProcessed c1 columns row = postProcessed c2 columns row) ->
  write_err w1 = write_err w2 ->
  res_err (Write c1 w1) = res_err (Write c2 w2) /\
  res_exit (Write c1 w1) = res_exit (Write c2 w2) /\
  ops (st_csv (res_state (Write c1 w1))) =
    ops (st_csv (res_state (Write c2 w2))) /\
  st_rest (res_state (Write c1 w1)) = st_rest (res_state (Write c2 w2)).
Proof.
  intros Hh Hwh Ht Hr Hcm Hp Hw. unfold Write.
  destruct (initial_writer c1 w1) as (Hc1 & Hu1 & Ho1 & _).
  destruct (initial_writer c2 w2) as (Hc2 & Hu2 & Ho2 & _).
  cbv zeta in Hc1, Hu1, Ho1, Hc2, Hu2, Ho2.
  set (cw1 := if negb (Delimiter c1 =? 0)%Z
              then set_Comma (csv_NewWriter w1) (Delimiter c1)
              else csv_NewWriter w1) in *.
  set (cw2 := if negb (Delimiter c2 =? 0)%Z
              then set_Comma (csv_NewWriter w2) (Delimiter c2)
              else csv_NewWriter w2) in *.
  assert (Hs : same_writes cw1 cw2)
    by (unfold same_writes; rewrite Hc1, Hc2, Ho1, Ho2, Hu1, Hu2; auto).
  clearbody cw1 cw2. rewrite Hh, Hwh, Hr.
  destruct (rows_ColumnTypes (rows c2)) as [e|columns].
  { simpl. destruct Hs as (_ & Ho & _). auto. }
  assert (Hhd : exists o cw1' cw2',
    (if WriteHeaders c2
     then csv_Write cw1 (if Nat.ltb 0 (List.length (Headers c2)) then Headers c2
                         else map Name columns)
     else (None, cw1)) = (o, cw1') /\
    (if WriteHeaders c2
     then csv_Write cw2 (if Nat.ltb 0 (List.length (Headers c2)) then Headers c2
                         else map Name columns)
     else (None, cw2)) = (o, cw2') /\
    same_writes cw1' cw2').
  { destruct (WriteHeaders c2).
    - set (h := if Nat.ltb 0 (List.length (Headers c2)) then Headers c2
                else map Name columns).
      destruct (csv_Write_same _ _ h Hs) as (He & Hs').
      destruct (csv_Write cw1 h) as [o1 cw1'].
      destruct (csv_Write cw2 h) as [o2 cw2'].
      simpl in He, Hs'. subst o2. now exists o1, cw1', cw2'.
    - now exists None, cw1, cw2. }
  destruct Hhd as (o & cw1' & cw2' & H1 & H2 & Hs').
  rewrite H1, H2.
  destruct o as [e|].
  { simpl. destruct Hs' as (_ & Ho & _). auto. }
  set (st1 := set_csv (mkState c1 cw1 (rows_pending (rows c2)) []) cw1').
  set (st2 := set_csv (mkState c2 cw2 (rows_pending (rows c2)) []) cw2').
  assert (Hst : same_loop columns st1 st2)
    by (subst st1 st2; unfold same_loop; simpl; auto).
  destruct (writeLoop_congr columns (rows_pending (rows c2)) st1 st2 Hst)
    as (Hfst & Hst').
  destruct (writeLoop columns (rows_pending (rows c2)) st1) as [o1 st1'].
  destruct (writeLoop columns (rows_pending (rows c2)) st2) as [o2 st2'].
  simpl in Hfst, Hst'. subst o2.
  destruct Hst' as (_ & _ & Hre & _ & Hops & _).
  destruct o1 as [[x e]|]; simpl; auto.
  rewrite Hops. auto.
Qed.

(** ** The returns of [Write] *)

Lemma Rows_Scan_inl (cur : error + list value) (count : nat) (e : error) :
  Rows_Scan cur count = inl e ->
  cur = inl e \/
  exists values, cur = inr values /\ List.length values <> count /\
                 e = ErrScanArgs (List.length values) count.
Proof.
  destruct cur as [e0|vs]; simpl.
  - intros H; inversion H. now left.
  - destruct (Nat.eqb (List.length vs) count) eqn:Hl; [discriminate|].
    intros H; inversion H. right. exists vs.
    repeat split. now apply Nat.eqb_neq.
Qed.

Lemma rowsOK_middle (c : Converter) (columns : list ColumnType)
  (pre rest : list (error + list value)) (cur : error + list value) :
  rowsOK c columns (pre ++ cur :: rest) -> stringified c columns cur <> None.
Proof.
  unfold rowsOK. intros H. apply Forall_app in H. destruct H as (_ & H).
  now inversion H.
Qed.

(** A source without faults, a delimiter the csv.Writer accepts and an
    [io.Writer] that takes every record leave [Write] one way out. *)
Lemma Write_clean (c : Converter) (writer : ioWriter)
  (columns : list ColumnType) :
  rows_ColumnTypes (rows c) = inr columns ->
  rowsOK c columns (rows_pending (rows c)) ->
  validDelim (commaOf c) = true ->
  (forall done record, write_err writer done record = None) ->
  let r := Write c writer in
  res_exit r = ExitEnd /\
  res_err r = rows_Err (rows c) /\
  ops (st_csv (res_state r)) =
    map OpWrite (headerRows c columns ++
                 dataRows c columns (rows_pending (rows c))) ++ [OpFlush] /\
  st_calls (res_state r) = processorCalls c columns (rows_pending (rows c)).
Proof.
  intros Hct Hok Hvalid Hw. cbv zeta.
  destruct (Write_spec c writer) as (_ & Hu & Hcm & H). cbv zeta in Hu, Hcm, H.
  rewrite Hct in H.
  assert (Hnowrite : forall h e,
            writeFailure (st_csv (res_state (Write c writer))) h e -> False).
  { intros h e [(Hv & _)|(_ & He)].
    - rewrite Hcm in Hv. congruence.
    - rewrite Hu, Hw in He. discriminate. }
  destruct (res_exit (Write c writer)).
  - contradiction.
  - destruct H as (h & e & _ & _ & _ & _ & _ & Hf). elim (Hnowrite h e Hf).
  - destruct H as (e & pre & cur & _ & Hp & _ & _ & _ & Hf). simpl in Hf.
    rewrite Hp in Hok. apply rowsOK_middle in Hok.
    unfold stringified in Hok. rewrite Hf in Hok. now elim Hok.
  - destruct H as (e & pre & cur & _ & Hp & _ & _ & _ & values & Hs & Hf).
    rewrite Hp in Hok. apply rowsOK_middle in Hok.
    unfold stringified in Hok. rewrite Hs, Hf in Hok. now elim Hok.
  - destruct H as (e & pre & cur & _ & _ & _ & _ & _ & row & r & _ & _ & Hf).
    elim (Hnowrite r e Hf).
  - destruct H as (He & _ & _ & Ho & Hk & _). auto.
Qed.

(** X1: when [Write] returns no error the column metadata was read, the
    source reported no error, every row was scanned and stringified, and
    the writer received the header rows, the data rows of all source rows
    and then the flush. *)
Theorem Write_nil_complete (c : Converter) (writer : ioWriter) :
  let r := Write c writer in
  res_err r = None ->
  exists columns,
    rows_ColumnTypes (rows c) = inr columns /\
    rows_Err (rows c) = None /\
    res_exit r = ExitEnd /\
    st_rest (res_state r) = [] /\
    rowsOK c columns (rows_pending (rows c)) /\
    ops (st_csv (res_state r)) =
      map OpWrite (headerRows c columns ++
                   dataRows c columns (rows_pending (rows c))) ++ [OpFlush].
Proof.
  cbv zeta. intros Hnil.
  destruct (Write_spec c writer) as (_ & _ & _ & H). cbv zeta in H.
  destruct (rows_ColumnTypes (rows c)) as [e|columns].
  { destruct H as (_ & He & _). congruence. }
  exists columns.
  destruct (res_exit (Write c writer));
    try contradiction;
    try (destruct H as (x1 & x2 & x3 & He & _); congruence);
    try (destruct H as (x1 & x2 & _ & He & _); congruence).
  destruct H as (He & Hre & Hok & Ho & _).
  repeat split; auto. congruence.
Qed.

(** X2: with column metadata that can be read, rows that all scan and
    stringify, a delimiter that encoding/csv accepts and an [io.Writer] that
    takes every record, [Write] runs to the end: it returns [rows.Err()],
    has written the header rows and all data rows and flushed, and has
    called the post-processor, if any, for every row. *)
Theorem Write_succeeds (c : Converter) (writer : ioWriter)
  (columns : list ColumnType) :
  rows_ColumnTypes (rows c) = inr columns ->
  rowsOK c columns (rows_pending (rows c)) ->
  validDelim (commaOf c) = true ->
  (forall done record, write_err writer done record = None) ->
  let r := Write c writer in
  let l := ops (st_csv (res_state r)) in
  res_exit r = ExitEnd /\
  res_err r = rows_Err (rows c) /\
  emitted l =
    headerRows c columns ++ dataRows c columns (rows_pending (rows c)) /\
  delivered l = emitted l /\
  buffered l = [] /\
  st_calls (res_state r) = processorCalls c columns (rows_pending (rows c)).
Proof.
  intros Hct Hok Hvalid Hw. cbv zeta.
  destruct (Write_clean c writer columns Hct Hok Hvalid Hw)
    as (Hx & He & Ho & Hk).
  rewrite Ho, emitted_app, emitted_writes. simpl. rewrite app_nil_r.
  repeat split; auto; apply delivered_flushed.
Qed.

(** X3: when the column metadata cannot be read, [Write] returns that
    error without any operation on the writer, without advancing the
    cursor and without calling the post-processor; [WriteString] returns
    the error, [String] the empty string, and [WriteFile] the error, after
    creating the file and closing it once. *)
Theorem column_types_error (c : Converter) (writer : ioWriter) (err : error) :
  rows_ColumnTypes (rows c) = inl err ->
  (let r := Write c writer in
   res_err r = Some err /\ res_exit r = ExitColumnTypes /\
   ops (st_csv (res_state r)) = [] /\
   st_rest (res_state r) = rows_pending (rows c) /\
   st_calls (res_state r) = []) /\
  sr_err (WriteString c) = Some err /\
  fst (String_ c) = "" /\
  forall csvFileName file,
    os_Create csvFileName = inr file ->
    fr_err (WriteFile c csvFileName) = Some err /\
    fr_file (WriteFile c csvFileName) = Some (mkHandle file 1).
Proof.
  intros Hct.
  assert (Hw : forall w,
    res_err (Write c w) = Some err /\ res_exit (Write c w) = ExitColumnTypes /\
    ops (st_csv (res_state (Write c w))) = [] /\
    st_rest (res_state (Write c w)) = rows_pending (rows c) /\
    st_calls (res_state (Write c w)) = []).
  { intros w. destruct (Write_spec c w) as (_ & _ & _ & H). cbv zeta in H.
    rewrite Hct in H. destruct H as (Hx & He & Ho & Hr & Hk). auto. }
  split; [apply Hw|].
  assert (Hs : sr_err (WriteString c) = Some err)
    by (unfold WriteString; simpl; apply Hw).
  split; [exact Hs|]. split.
  - unfold String_. now rewrite Hs.
  - intros csvFileName file Hf. unfold WriteFile. rewrite Hf.
    destruct (Hw (file_writer file)) as (He & _). rewrite He. simpl. auto.
Qed.

(** X4: when [Write] returns from a failed [Scan], the error is the one of
    the row the cursor stands on (the driver's, or the count mismatch of
    database/sql); the writer holds the header rows and the data rows of
    the rows before it and has not been flushed; the rows after it have
    not been read. *)
Theorem scan_error (c : Converter) (writer : ioWriter)
  (columns : list ColumnType) :
  rows_ColumnTypes (rows c) = inr columns ->
  let r := Write c writer in
  res_exit r = ExitScan ->
  exists pre cur e,
    rows_pending (rows c) = pre ++ cur :: st_rest (res_state r) /\
    res_err r = Some e /\
    (cur = inl e \/
     exists values,
       cur = inr values /\ List.length values <> List.length columns /\
       e = ErrScanArgs (List.length values) (List.length columns)) /\
    rowsOK c columns pre /\
    ops (st_csv (res_state r)) =
      map OpWrite (headerRows c columns ++ dataRows c columns pre).
Proof.
  intros Hct. cbv zeta. intros Hx.
  destruct (Write_spec c writer) as (_ & _ & _ & H). cbv zeta in H.
  rewrite Hct, Hx in H.
  destruct H as (e & pre & cur & He & Hp & Hok & Ho & _ & Hf). simpl in Hf.
  exists pre, cur, e. repeat split; auto.
  now apply Rows_Scan_inl.
Qed.

(** X5: when [Write] returns from a failed write of a data row, the row
    had been scanned, stringified and passed by the post-processor, which
    was called for it; the error is the csv.Writer's (the delimiter is
    rejected, or the machinery below the writer failed while taking this
    record); the records the writer has accepted are the header rows and
    the data rows of the source rows before this one, no more; the cursor
    stands after this row. *)
Theorem row_write_error (c : Converter) (writer : ioWriter)
  (columns : list ColumnType) :
  rows_ColumnTypes (rows c) = inr columns ->
  let r := Write c writer in
  res_exit r = ExitWriteRow ->
  exists pre cur row record e,
    rows_pending (rows c) = pre ++ cur :: st_rest (res_state r) /\
    res_err r = Some e /\
    stringified c columns cur = Some row /\
    postProcessed c columns row = Some record /\
    (validDelim (commaOf c) = false /\ e = ErrInvalidDelim \/
     validDelim (commaOf c) = true /\
     write_err writer
       (map OpWrite (headerRows c columns ++ dataRows c columns pre)) record
     = Some e) /\
    ops (st_csv (res_state r)) =
      map OpWrite (headerRows c columns ++ dataRows c columns pre) /\
    st_calls (res_state r) = processorCalls c columns (pre ++ [cur]).
Proof.
  intros Hct. cbv zeta. intros Hx.
  destruct (Write_spec c writer) as (_ & Hu & Hcm & H). cbv zeta in Hu, Hcm, H.
  rewrite Hct, Hx in H.
  destruct H as (e & pre & cur & He & Hp & _ & Ho & Hk & row & r & Hs & Hpp & Hf).
  rewrite Hcm, Hu, Ho in Hf.
  exists pre, cur, row, r, e. auto 10.
Qed.

(** X6: when [Write] returns from a failed write of the header row,
    nothing has been written, no row has been read and the post-processor
    has not been called. *)
Theorem header_write_error (c : Converter) (writer : ioWriter)
  (columns : list ColumnType) :
  rows_ColumnTypes (rows c) = inr columns ->
  let r := Write c writer in
  res_exit r = ExitHeaders ->
  WriteHeaders c = true /\
  exists e,
    res_err r = Some e /\
    (validDelim (commaOf c) = false /\ e = ErrInvalidDelim \/
     validDelim (commaOf c) = true /\
     write_err writer []
       match Headers c with
       | [] => map Name columns
       | _ :: _ => Headers c
       end = Some e) /\
    ops (st_csv (res_state r)) = [] /\
    st_rest (res_state r) = rows_pending (rows c) /\
    st_calls (res_state r) = [].
Proof.
  intros Hct. cbv zeta. intros Hx.
  destruct (Write_spec c writer) as (_ & Hu & Hcm & H). cbv zeta in Hu, Hcm, H.
  rewrite Hct, Hx in H.
  destruct H as (h & e & Hh & He & Ho & Hr & Hk & Hf).
  unfold writeFailure in Hf. rewrite Hcm, Hu, Ho in Hf.
  unfold headerRows in Hh. destruct (WriteHeaders c); [|discriminate].
  inversion Hh; subst h.
  split; [reflexivity|]. exists e. auto 10.
Qed.

(** ** More on cells *)

(** X7: the time format touches time values only.  A time value is
    rendered with the format when one is set and in its default form
    otherwise; every other value is rendered the same by all converters, and
    when it is neither nil nor bytes it is rendered as [%v] prints it. *)
Theorem time_format_only_for_times (c : Converter) (column : ColumnType) :
  (forall t, TimeFormat c <> "" ->
     stringify c column (VTime t) = inr (Time_Format t (TimeFormat c))) /\
  (forall t, TimeFormat c = "" ->
     stringify c column (VTime t) = inr (Time_String t)) /\
  (forall v c', (forall t, v <> VTime t) ->
     stringify c column v = stringify c' column v) /\
  (forall v, (forall t, v <> VTime t) -> (forall b, v <> VBytes b) ->
     v <> VNil -> stringify c column v = inr (Sprintf_v v)).
Proof.
  repeat split.
  - intros t Hf. apply String.eqb_neq in Hf. unfold stringify.
    rewrite Hf. reflexivity.
  - intros t Hf. unfold stringify. rewrite Hf. reflexivity.
  - intros v c' Hv. unfold stringify.
    destruct v; try reflexivity;
      try (destruct (negb (TimeFormat c =? "")%string);
           destruct (negb (TimeFormat c' =? "")%string); reflexivity).
    now elim (Hv t).
  - intros v Ht Hb Hn. unfold stringify.
    destruct v; try (destruct (negb (TimeFormat c =? "")%string); reflexivity).
    + now elim Hn.
    + now elim (Hb b).
    + now elim (Ht t).
Qed.

Lemma stringifyRow_error_column (c : Converter) (columns : list ColumnType) :
  forall (values : list value) (e : error),
    stringifyRow c columns values = inl e ->
    exists column, In column columns /\
                   DatabaseTypeName column = "UNIQUEIDENTIFIER".
Proof.
  induction columns as [|col columns IH]; intros values e Hrow.
  - discriminate.
  - destruct values as [|v0 values]; [discriminate|].
    simpl in Hrow.
    destruct (stringify c col v0) as [e0|s0] eqn:Hs.
    + destruct (stringify_error _ _ _ _ Hs) as (b & _ & Hn & _).
      exists col. simpl. auto.
    + destruct (stringifyRow c columns values) as [e1|row'] eqn:Hr;
        [|discriminate].
      destruct (IH _ _ Hr) as (column & Hin & Hn).
      exists column. simpl. auto.
Qed.

(** X8: a cell fails to stringify only when it holds bytes, of a length
    other than sixteen, in a UNIQUEIDENTIFIER column; so a result set
    without such a column never makes [Write] return through the
    identifier-decoding error, and each of its rows that scans does
    stringify. *)
Theorem only_identifiers_fail (c : Converter) (writer : ioWriter)
  (columns : list ColumnType) :
  (forall column v e,
     stringify c column v = inl e <->
     exists b, v = VBytes b /\ DatabaseTypeName column = "UNIQUEIDENTIFIER" /\
               List.length b <> 16 /\ e = ErrInvalidUUID (List.length b)) /\
  ((forall column, In column columns ->
      DatabaseTypeName column <> "UNIQUEIDENTIFIER") ->
   (forall values, exists row, stringifyRow c columns values = inr row) /\
   (rows_ColumnTypes (rows c) = inr columns ->
    res_exit (Write c writer) <> ExitUUID)).
Proof.
  split.
  - intros column v e. split; [apply stringify_error|].
    intros (b & Hv & Hn & Hl & He). subst v e.
    apply String.eqb_eq in Hn. apply Nat.eqb_neq in Hl.
    unfold stringify, uuid_FromBytes. now rewrite Hn, Hl.
  - intros Hno.
    assert (Hrow : forall values,
              exists row, stringifyRow c columns values = inr row).
    { intros values.
      destruct (stringifyRow c columns values) as [e|row] eqn:Hr;
        [|now exists row].
      destruct (stringifyRow_error_column _ _ _ _ Hr) as (column & Hin & Hn).
      now elim (Hno column Hin). }
    split; [exact Hrow|].
    intros Hct Hx.
    destruct (Write_spec c writer) as (_ & _ & _ & H). cbv zeta in H.
    rewrite Hct, Hx in H.
    destruct H as (e & pre & cur & _ & _ & _ & _ & _ & values & _ & Hf).
    destruct (Hrow values) as (row & Hr). congruence.
Qed.

(** ** Settings that make no difference *)

(** X9: a converter whose delimiter is the zero rune converts like the
    same converter with a comma: the csv.Writer uses the comma, and the
    error returned, the return taken, the operations on the writer and the
    rows left unread are the same. *)
Theorem zero_delimiter_is_comma (c : Converter) (writer : ioWriter) :
  let c0 := mkConverter (Headers c) (WriteHeaders c) (TimeFormat c) 0%Z
              (rows c) (rowPostProcessor c) in
  let c44 := mkConverter (Headers c) (WriteHeaders c) (TimeFormat c) 44%Z
               (rows c) (rowPostProcessor c) in
  Comma (st_csv (res_state (Write c0 writer))) = 44%Z /\
  res_err (Write c0 writer) = res_err (Write c44 writer) /\
  res_exit (Write c0 writer) = res_exit (Write c44 writer) /\
  ops (st_csv (res_state (Write c0 writer))) =
    ops (st_csv (res_state (Write c44 writer))) /\
  st_rest (res_state (Write c0 writer)) =
    st_rest (res_state (Write c44 writer)).
Proof.
  cbv zeta. split.
  - match goal with
    | |- Comma (st_csv (res_state (Write ?c0 _))) = _ =>
        destruct (Write_spec c0 writer) as (_ & _ & Hcm & _)
    end.
    exact Hcm.
  - apply Write_congr; reflexivity.
Qed.

(** X10: installing a post-processor that returns every row as it is with
    the flag set changes nothing of what [Write] returns and writes,
    compared with installing none. *)
Theorem identity_processor_transparent (c : Converter) (writer : ioWriter) :
  let cid := SetRowPostProcessor c (Some (fun row _ => (true, row))) in
  let cno := SetRowPostProcessor c None in
  res_err (Write cid writer) = res_err (Write cno writer) /\
  res_exit (Write cid writer) = res_exit (Write cno writer) /\
  ops (st_csv (res_state (Write cid writer))) =
    ops (st_csv (res_state (Write cno writer))) /\
  st_rest (res_state (Write cid writer)) =
    st_rest (res_state (Write cno writer)).
Proof.
  cbv zeta.
  apply Write_congr;
    [reflexivity|reflexivity|reflexivity|reflexivity|reflexivity| |reflexivity].
  intros columns row. unfold postProcessed. simpl. reflexivity.
Qed.

Lemma emitOf_none (f : CsvRowPostProcessorFunc) (columns : list ColumnType)
  (calls : list (list string)) :
  (forall row, fst (f row columns) = false) ->
  emitOf f columns calls = [].
Proof.
  intros Hf. unfold emitOf. induction calls as [|row calls IH]; [reflexivity|].
  simpl. rewrite Hf. exact IH.
Qed.

(** X11: with a post-processor that unsets the flag for every row, [Write]
    writes no data row: the writer receives the header rows, or nothing
    when the header write fails; [Write] never returns through a failed row
    write, and when it runs to the end the processor has been called once
    for every source row. *)
Theorem omitting_processor (c : Converter) (writer : ioWriter)
  (columns : list ColumnType) (f : CsvRowPostProcessorFunc) :
  rows_ColumnTypes (rows c) = inr columns ->
  rowPostProcessor c = Some f ->
  (forall row, fst (f row columns) = false) ->
  let r := Write c writer in
  (res_exit r = ExitHeaders /\ emitted (ops (st_csv (res_state r))) = [] \/
   res_exit r <> ExitHeaders /\
   emitted (ops (st_csv (res_state r))) = headerRows c columns) /\
  res_exit r <> ExitWriteRow /\
  (res_exit r = ExitEnd ->
   List.length (st_calls (res_state r)) = List.length (rows_pending (rows c))).
Proof.
  intros Hct Hpp Hf. cbv zeta. split; [|split].
  - destruct (Write_out c writer columns Hct)
      as [(Hx & _ & Ho & _)|(Hx & pre & post & _ & _ & Hout & _)].
    + left. now rewrite Ho.
    + right. split; [assumption|].
      rewrite Hout, (dataRows_processed _ _ f _ Hpp), (emitOf_none _ _ _ Hf).
      apply app_nil_r.
  - intros Hx.
    destruct (Write_spec c writer) as (_ & _ & _ & H). cbv zeta in H.
    rewrite Hct, Hx in H.
    destruct H as (e & pre & cur & _ & _ & _ & _ & _ & row & r & _ & Hpost & _).
    unfold postProcessed in Hpost. rewrite Hpp, Hf in Hpost. discriminate.
  - intros Hx.
    destruct (Write_spec c writer) as (_ & _ & _ & H). cbv zeta in H.
    rewrite Hct, Hx in H. destruct H as (_ & _ & Hok & _ & Hk & _).
    rewrite Hk. unfold processorCalls. rewrite Hpp.
    now apply stringifiedRows_length.
Qed.

(** X12: every row the post-processor is called with has exactly one
    field per column of the result set. *)
Theorem processor_row_width (c : Converter) (writer : ioWriter)
  (columns : list ColumnType) :
  rows_ColumnTypes (rows c) = inr columns ->
  Forall (fun row => List.length row = List.length columns)
    (st_calls (res_state (Write c writer))).
Proof.
  intros Hct.
  destruct (Write_out c writer columns Hct)
    as [(_ & _ & _ & Hk & _)|(_ & pre & post & _ & _ & _ & _ & Hk & _)];
    rewrite Hk; [constructor|].
  unfold processorCalls. destruct (rowPostProcessor c); [|constructor].
  apply stringifiedRows_width.
Qed.

(** ** Delimiters that encoding/csv rejects *)

Lemma writeLoop_invalid_delim (columns : list ColumnType)
  (pending : list (error + list value)) :
  forall st : state,
    validDelim (Comma (st_csv st)) = false ->
    st_csv (snd (writeLoop columns pending st)) = st_csv st /\
    forall x e, fst (writeLoop columns pending st) = Some (x, e) ->
                x = ExitWriteRow -> e = ErrInvalidDelim.
Proof.
  induction pending as [|cur rest IH]; intros st Hv.
  - simpl. split; [reflexivity|discriminate].
  - rewrite writeLoop_cons. cbv zeta.
    destruct (Rows_Scan cur (List.length columns)) as [e|values].
    { simpl. split; [reflexivity|]. intros x e0 H Hx. inversion H. congruence. }
    destruct (stringifyRow (st_conv st) columns values) as [e|row].
    { simpl. split; [reflexivity|]. intros x e0 H Hx. inversion H. congruence. }
    destruct (postProcessed (st_conv st) columns row) as [r|].
    + unfold csv_Write. rewrite Hv. simpl. split; [reflexivity|].
      intros x e0 H _. now inversion H.
    + apply (IH (mkState (st_conv st) (st_csv st) rest _)). exact Hv.
Qed.

(** X13: with a delimiter that encoding/csv rejects (the quote, a carriage
    return, a line feed, the replacement character, or no valid rune)
    [Write] writes no record at all; with headers enabled it returns the
    csv.Writer's delimiter error from the header write, before reading any
    row. *)
Theorem invalid_delimiter_writes_nothing (c : Converter) (writer : ioWriter) :
  validDelim (commaOf c) = false ->
  let r := Write c writer in
  emitted (ops (st_csv (res_state r))) = [] /\
  (forall columns,
     rows_ColumnTypes (rows c) = inr columns -> WriteHeaders c = true ->
     res_err r = Some ErrInvalidDelim /\ res_exit r = ExitHeaders /\
     st_rest (res_state r) = rows_pending (rows c)).
Proof.
  intros Hv. cbv zeta. unfold Write.
  destruct (initial_writer c writer) as (Hcm & _ & Ho & _).
  cbv zeta in Hcm, Ho.
  set (cw := if negb (Delimiter c =? 0)%Z
             then set_Comma (csv_NewWriter writer) (Delimiter c)
             else csv_NewWriter writer) in *.
  clearbody cw. rewrite <- Hcm in Hv.
  destruct (rows_ColumnTypes (rows c)) as [e|columns].
  { simpl. rewrite Ho. split; [reflexivity|]. intros columns H. discriminate. }
  destruct (WriteHeaders c).
  - unfold csv_Write. rewrite Hv. simpl. rewrite Ho.
    split; [reflexivity|]. intros columns' _ _. auto.
  - destruct (writeLoop_invalid_delim columns (rows_pending (rows c))
                (set_csv (mkState c cw (rows_pending (rows c)) []) cw) Hv)
      as (Hcsv & _).
    destruct (writeLoop columns (rows_pending (rows c))
                (set_csv (mkState c cw (rows_pending (rows c)) []) cw))
      as [[[x e]|] st']; simpl in Hcsv |- *.
    + rewrite Hcsv, Ho. split; [reflexivity|]. intros columns' _ H. discriminate.
    + rewrite Hcsv, emitted_app, Ho. split; [reflexivity|].
      intros columns' _ H. discriminate.
Qed.

(** ** Files and strings *)

Lemma csv_Write_alike (cw1 cw2 : csvWriter) (r : list string) :
  alike_writes cw1 cw2 ->
  fst (csv_Write cw1 r) = fst (csv_Write cw2 r) /\
  alike_writes (snd (csv_Write cw1 r)) (snd (csv_Write cw2 r)).
Proof.
  intros (Hc & Ho & Hw). unfold csv_Write, alike_writes.
  rewrite Hc, Ho, Hw.
  destruct (validDelim (Comma cw2)); simpl; [|auto].
  destruct (write_err (under cw2) (ops cw2) r); simpl; auto.
Qed.

Lemma writeLoop_alike (columns : list ColumnType)
  (pending : list (error + list value)) :
  forall st1 st2 : state,
    alike_states st1 st2 ->
    fst (writeLoop columns pending st1) = fst (writeLoop columns pending st2) /\
    alike_states (snd (writeLoop columns pending st1))
                 (snd (writeLoop columns pending st2)).
Proof.
  induction pending as [|cur rest IH]; intros st1 st2 Hs.
  - simpl. auto.
  - destruct Hs as (Hc & Hr & Hk & Hw).
    rewrite !writeLoop_cons. cbv zeta. rewrite Hc, Hk.
    destruct (Rows_Scan cur (List.length columns)) as [e|values].
    { simpl. unfold alike_states. simpl. auto. }
    destruct (stringifyRow (st_conv st2) columns values) as [e|row].
    { simpl. unfold alike_states. simpl. auto. }
    destruct (postProcessed (st_conv st2) columns row) as [r|].
    + destruct (csv_Write_alike _ _ r Hw) as (He & Hw').
      destruct (csv_Write (st_csv st1) r) as [o1 cw1].
      destruct (csv_Write (st_csv st2) r) as [o2 cw2].
      simpl in He, Hw'. subst o2.
      destruct o1 as [e|].
      * simpl. unfold alike_states. simpl. auto.
      * apply IH. unfold alike_states. simpl. auto.
    + apply IH. unfold alike_states. simpl. auto.
Qed.

(** [Write] on two [io.Writer]s that fail on the same records. *)
Lemma Write_alike (c : Converter) (w1 w2 : ioWriter) :
  (forall done record, write_err w1 done record = write_err w2 done record) ->
  res_err (Write c w1) = res_err (Write c w2) /\
  res_exit (Write c w1) = res_exit (Write c w2) /\
  alike_states (res_state (Write c w1)) (res_state (Write c w2)).
Proof.
  intros Hw. unfold Write.
  destruct (initial_writer c w1) as (Hc1 & Hu1 & Ho1 & _).
  destruct (initial_writer c w2) as (Hc2 & Hu2 & Ho2 & _).
  cbv zeta in Hc1, Hu1, Ho1, Hc2, Hu2, Ho2.
  set (cw1 := if negb (Delimiter c =? 0)%Z
              then set_Comma (csv_NewWriter w1) (Delimiter c)
              else csv_NewWriter w1) in *.
  set (cw2 := if negb (Delimiter c =? 0)%Z
              then set_Comma (csv_NewWriter w2) (Delimiter c)
              else csv_NewWriter w2) in *.
  assert (Hs : alike_writes cw1 cw2)
    by (unfold alike_writes; rewrite Hc1, Hc2, Ho1, Ho2, Hu1, Hu2; auto).
  clearbody cw1 cw2.
  destruct (rows_ColumnTypes (rows c)) as [e|columns].
  { simpl. unfold alike_states. simpl. auto 10. }
  assert (Hhd : exists o cw1' cw2',
    (if WriteHeaders c
     then csv_Write cw1 (if Nat.ltb 0 (List.length (Headers c)) then Headers c
                         else map Name columns)
     else (None, cw1)) = (o, cw1') /\
    (if WriteHeaders c
     then csv_Write cw2 (if Nat.ltb 0 (List.length (Headers c)) then Headers c
                         else map Name columns)
     else (None, cw2)) = (o, cw2') /\
    alike_writes cw1' cw2').
  { destruct (WriteHeaders c).
    - set (h := if Nat.ltb 0 (List.length (Headers c)) then Headers c
                else map Name columns).
      destruct (csv_Write_alike _ _ h Hs) as (He & Hs').
      destruct (csv_Write cw1 h) as [o1 cw1'].
      destruct (csv_Write cw2 h) as [o2 cw2'].
      simpl in He, Hs'. subst o2. now exists o1, cw1', cw2'.
    - now exists None, cw1, cw2. }
  destruct Hhd as (o & cw1' & cw2' & H1 & H2 & Hs').
  rewrite H1, H2.
  destruct o as [e|].
  { simpl. unfold alike_states. simpl. auto 10. }
  set (st1 := set_csv (mkState c cw1 (rows_pending (rows c)) []) cw1').
  set (st2 := set_csv (mkState c cw2 (rows_pending (rows c)) []) cw2').
  assert (Hst : alike_states st1 st2)
    by (subst st1 st2; unfold alike_states; simpl; auto).
  destruct (writeLoop_alike columns (rows_pending (rows c)) st1 st2 Hst)
    as (Hfst & Hst').
  destruct (writeLoop columns (rows_pending (rows c)) st1) as [o1 st1'].
  destruct (writeLoop columns (rows_pending (rows c)) st2) as [o2 st2'].
  simpl in Hfst, Hst'. subst o2.
  destruct o1 as [[x e]|]; simpl; [auto 10|].
  destruct Hst' as (Hcv & Hre & Hk & Hcm & Hops & Hpt).
  unfold alike_states, alike_writes. simpl. rewrite Hops. auto 10.
Qed.

(** X14: writing to a file whose writes never fail makes the same [Write]
    as [WriteString]: the same records reach the csv.Writer, the same
    return is taken, and an error of the conversion is the error of both. *)
Theorem WriteFile_like_WriteString (c : Converter) (csvFileName : string)
  (file : File) :
  os_Create csvFileName = inr file ->
  (forall done record, write_err (file_writer file) done record = None) ->
  exists w,
    fr_write (WriteFile c csvFileName) = Some w /\
    res_err w = sr_err (WriteString c) /\
    res_exit w = res_exit (sr_write (WriteString c)) /\
    ops (st_csv (res_state w)) =
      ops (st_csv (res_state (sr_write (WriteString c)))) /\
    (forall e, sr_err (WriteString c) = Some e ->
               fr_err (WriteFile c csvFileName) = Some e).
Proof.
  intros Hf Hw.
  destruct (Write_alike c (file_writer file) bytes_Buffer Hw)
    as (He & Hx & _ & _ & _ & _ & Ho & _).
  exists (Write c (file_writer file)).
  unfold WriteFile, WriteString. rewrite Hf. simpl.
  repeat split; auto.
  - destruct (res_err (Write c (file_writer file))); reflexivity.
  - intros e Hs. rewrite <- He in Hs. rewrite Hs. reflexivity.
Qed.

(** X15: a terminal error of the source is never lost: [Write] then
    returns an error on every path, and [String] returns the empty string
    even when every row was written into the buffer. *)
Theorem terminal_error_reported (c : Converter) (writer : ioWriter)
  (e : error) :
  rows_Err (rows c) = Some e ->
  (exists e', res_err (Write c writer) = Some e') /\
  (res_exit (Write c writer) = ExitEnd -> res_err (Write c writer) = Some e) /\
  (exists e', sr_err (WriteString c) = Some e') /\
  fst (String_ c) = "".
Proof.
  intros Herr.
  assert (Hw : forall w, (exists e', res_err (Write c w) = Some e') /\
             (res_exit (Write c w) = ExitEnd -> res_err (Write c w) = Some e)).
  { intros w. destruct (Write_spec c w) as (_ & _ & _ & H). cbv zeta in H.
    destruct (rows_ColumnTypes (rows c)) as [e0|columns].
    - destruct H as (Hx & He & _). split; [now exists e0|].
      intros Hx'. congruence.
    - destruct (res_exit (Write c w)); try contradiction;
        try (destruct H as (e1 & x2 & x3 & He & _);
             split; [now exists e1|discriminate]).
      + destruct H as (h & e1 & _ & He & _). split; [now exists e1|discriminate].
      + destruct H as (He & _). rewrite He, Herr. split; [now exists e|auto]. }
  split; [apply Hw|]. split; [apply Hw|].
  assert (Hs : exists e', sr_err (WriteString c) = Some e')
    by (unfold WriteString; simpl; apply Hw).
  split; [exact Hs|].
  destruct Hs as (e' & Hs). unfold String_. now rewrite Hs.
Qed.

(** X16: for a source without faults and a delimiter that encoding/csv
    accepts, [WriteString] returns no error and [String] returns the text
    the buffer holds after the header rows, all data rows and the flush. *)
Theorem String_of_clean_source (c : Converter) (columns : list ColumnType) :
  rows_ColumnTypes (rows c) = inr columns ->
  rowsOK c columns (rows_pending (rows c)) ->
  rows_Err (rows c) = None ->
  validDelim (commaOf c) = true ->
  sr_err (WriteString c) = None /\
  fst (String_ c) = sr_text (WriteString c) /\
  sr_text (WriteString c) =
    Buffer_String (commaOf c)
      (map OpWrite (headerRows c columns ++
                    dataRows c columns (rows_pending (rows c))) ++ [OpFlush]).
Proof.
  intros Hct Hok Herr Hv.
  destruct (Write_clean c bytes_Buffer columns Hct Hok Hv (fun _ _ => eq_refl))
    as (_ & He & Ho & _).
  destruct (Write_spec c bytes_Buffer) as (_ & _ & Hcm & _). cbv zeta in Hcm.
  assert (Hs : sr_err (WriteString c) = None)
    by (unfold WriteString; simpl; congruence).
  split; [exact Hs|]. split.
  - unfold String_. now rewrite Hs.
  - unfold WriteString. simpl. now rewrite Hcm, Ho.
Qed.

(** ** Counting rows *)

Lemma dataRows_length (c : Converter) (columns : list ColumnType)
  (l : list (error + list value)) :
  List.length (dataRows c columns l) <= List.length l.
Proof.
  induction l as [|cur l IH]; [simpl; lia|].
  change (cur :: l) with ([cur] ++ l).
  rewrite dataRows_app, !length_app.
  assert (List.length (dataRows c columns [cur]) <= 1).
  { unfold dataRows, rowOutput. simpl.
    destruct (stringified c columns cur) as [row|]; [|simpl; lia].
    destruct (postProcessed c columns row); simpl; lia. }
  simpl in *. lia.
Qed.

(** X17: [Write] never writes more records than one header row, when
    headers are enabled, and one per source row; without a post-processor a
    conversion that runs to the end writes exactly that many. *)
Theorem record_count (c : Converter) (writer : ioWriter)
  (columns : list ColumnType) :
  rows_ColumnTypes (rows c) = inr columns ->
  let r := Write c writer in
  let n := List.length (emitted (ops (st_csv (res_state r)))) in
  let h := if WriteHeaders c then 1 else 0 in
  n <= h + List.length (rows_pending (rows c)) /\
  (rowPostProcessor c = None -> res_exit r = ExitEnd ->
   n = h + List.length (rows_pending (rows c))).
Proof.
  intros Hct. cbv zeta.
  assert (Hh : List.length (headerRows c columns) =
               if WriteHeaders c then 1 else 0)
    by (unfold headerRows; destruct (WriteHeaders c); reflexivity).
  destruct (Write_out c writer columns Hct)
    as [(Hx & _ & Ho & _)
       |(Hx & pre & post & Hp & Hok & Hout & _ & _ & Hend & _)].
  - rewrite Ho. simpl. split; [lia|]. intros _ Hx'. congruence.
  - rewrite Hout, length_app, Hh, Hp, length_app. split.
    + pose proof (dataRows_length c columns pre). lia.
    + intros Hpp Hx'. destruct (Hend Hx') as (Hpost & _). subst post.
      rewrite (dataRows_unprocessed _ _ _ Hpp).
      rewrite (stringifiedRows_length _ _ _ Hok). simpl. lia.
Qed.

(** X18: a source without rows makes [Write] finish after the header: it
    returns from a failed header write, or it runs to the end, returns
    [rows.Err()], and the writer has received the header rows and the
    flush; the post-processor is not called. *)
Theorem empty_source (c : Converter) (writer : ioWriter)
  (columns : list ColumnType) :
  rows_ColumnTypes (rows c) = inr columns ->
  rows_pending (rows c) = [] ->
  let r := Write c writer in
  st_calls (res_state r) = [] /\
  (res_exit r = ExitHeaders \/
   res_exit r = ExitEnd /\ res_err r = rows_Err (rows c) /\
   ops (st_csv (res_state r)) = map OpWrite (headerRows c columns) ++ [OpFlush]).
Proof.
  intros Hct Hempty. cbv zeta.
  destruct (Write_spec c writer) as (_ & _ & _ & H). cbv zeta in H.
  rewrite Hct, Hempty in H.
  assert (Hcons : forall (pre : list (error + list value)) cur rest,
            [] = pre ++ cur :: rest -> False)
    by (intros pre cur rest Hp; destruct pre; discriminate).
  destruct (res_exit (Write c writer));
    try contradiction;
    try (destruct H as (e & pre & cur & _ & Hp & _); elim (Hcons _ _ _ Hp)).
  - destruct H as (h & e & _ & _ & _ & _ & Hk & _). auto.
  - destruct H as (He & _ & _ & Ho & Hk & _).
    unfold processorCalls in Hk. simpl in Ho, Hk.
    rewrite app_nil_r in Ho.
    split; [destruct (rowPostProcessor c); exact Hk|]. right. auto.
Qed.

(** ** The package-level functions *)

(** X19: the package-level [Write] converts with the defaults of
    [NewConverter]: the delimiter is the comma, no post-processor is
    called, and unless the header write fails the first record is the
    column names and every record after it has one field per column. *)
Theorem package_Write_defaults (writer : ioWriter) (r : Rows)
  (columns : list ColumnType) :
  rows_ColumnTypes r = inr columns ->
  let w := pkg_Write writer r in
  Comma (st_csv (res_state w)) = 44%Z /\
  st_calls (res_state w) = [] /\
  (res_exit w <> ExitHeaders ->
   exists data,
     emitted (ops (st_csv (res_state w))) = map Name columns :: data /\
     Forall (fun row => List.length row = List.length columns) data).
Proof.
  intros Hct. cbv zeta. unfold pkg_Write.
  destruct (Write_spec (NewConverter r) writer) as (_ & _ & Hcm & _).
  cbv zeta in Hcm. split; [exact Hcm|].
  destruct (Write_out (NewConverter r) writer columns Hct)
    as [(Hx & _ & _ & Hk & _)|(_ & pre & post & _ & _ & Hout & _ & Hk & _)].
  - split; [exact Hk|]. intros Hn. contradiction.
  - split; [exact Hk|]. intros _.
    exists (dataRows (NewConverter r) columns pre). split; [exact Hout|].
    rewrite (dataRows_unprocessed (NewConverter r) columns pre eq_refl).
    apply stringifiedRows_width.
Qed.

End Proofs.

(** ** The tests of sql2csv_test.go, run on the model *)

Module Tests.
Import Fixtures.

Example TestWriteString :
  sr_text (pkg_WriteString people) = expected /\
  sr_err (pkg_WriteString people) = None.
Proof. vm_compute. split; reflexivity. Qed.

Example TestWrite :
  let r := pkg_Write bytes_Buffer people in
  res_err r = None /\
  render (Comma (st_csv (res_state r))) (ops (st_csv (res_state r))) = expected.
Proof. vm_compute. split; reflexivity. Qed.

Example TestWriteFile :
  let r := pkg_WriteFile "github.com-datatug-sql2csv-test.csv" people in
  fr_err r = None /\
  option_map fh_closes (fr_file r) = Some 1 /\
  option_map (fun w => render (Comma (st_csv (res_state w)))
                         (ops (st_csv (res_state w)))) (fr_write r)
  = Some expected.
Proof. vm_compute. repeat split; reflexivity. Qed.

Example TestWriteHeaders :
  fst (String_ (with_WriteHeaders (NewConverter people) false)) =
  ("Alice,1,1973-11-29 21:33:09 +0000 UTC" ++ nl)%string.
Proof. vm_compute. reflexivity. Qed.

Example TestSetHeaders :
  fst (String_ (with_headers (NewConverter people) ["Name"; "Age"; "Birthday"])) =
  ("Name,Age,Birthday" ++ nl ++ "Alice,1,1973-11-29 21:33:09 +0000 UTC" ++ nl)%string.
Proof. vm_compute. reflexivity. Qed.

Example TestSetRowPostProcessorModifyingRows :
  fst (String_ (SetRowPostProcessor (NewConverter people) (Some keep_first))) =
  ("name,age,bdate" ++ nl ++ "Alice,X,X" ++ nl)%string.
Proof. vm_compute. reflexivity. Qed.

Example TestSetRowPostProcessorOmittingRows :
  fst (String_ (SetRowPostProcessor (NewConverter people) (Some omit_all))) =
  ("name,age,bdate" ++ nl)%string.
Proof. vm_compute. reflexivity. Qed.

Example TestSetTimeFormat :
  fst (String_ (with_TimeFormat (NewConverter people) "3:04PM")) =
  ("name,age,bdate" ++ nl ++ "Alice,1,9:33PM" ++ nl)%string.
Proof. vm_compute. reflexivity. Qed.

Example TestConvertingNilValueShouldReturnEmptyString :
  fst (String_ (NewConverter people_nick)) =
  ("name,nickname,age" ++ nl ++ "Alice,,1" ++ nl)%string.
Proof. vm_compute. reflexivity. Qed.

Example TestAlternateDelimiter :
  fst (String_ (with_Delimiter (NewConverter people) 124%Z)) =
  ("name|age|bdate" ++ nl ++ "Alice|1|1973-11-29 21:33:09 +0000 UTC" ++ nl)%string.
Proof. vm_compute. reflexivity. Qed.

Example TestMissingDelimiter :
  fst (String_ (with_Delimiter (NewConverter people) 0%Z)) = expected.
Proof. vm_compute. reflexivity. Qed.

Example canonical_guid :
  UUID_String guid_bytes = "00112233-4455-6677-8899-aabbccddeeff".
Proof. vm_compute. reflexivity. Qed.

Example quote_is_no_delimiter :
  let r := Write (with_Delimiter (NewConverter people) 34%Z) bytes_Buffer in
  res_err r = Some ErrInvalidDelim /\ res_exit r = ExitHeaders.
Proof. vm_compute. split; reflexivity. Qed.

End Tests.

(** ** The theorems at the fixtures *)

Import Fixtures.

Lemma Write_header_row_witness :
  let c := NewConverter people in
  let r := Write c bytes_Buffer in
  let st := res_state r in
  let out := emitted (ops (st_csv st)) in
  WriteHeaders c = true /\
  res_exit r <> ExitHeaders /\
  exists pre post,
    rows_pending (rows c) = pre ++ post /\
    rowsOK c people_columns pre /\
    out = [["name"; "age"; "bdate"]] ++ dataRows c people_columns pre /\
    (res_exit r = ExitEnd -> post = [] /\ res_err r = rows_Err (rows c)) /\
    (res_exit r <> ExitEnd ->
       exists cur e,
         post = cur :: st_rest st /\ res_err r = Some e /\
         failure c people_columns (st_csv st) cur (res_exit r) e).
Proof.
  split; [reflexivity|]. split; [discriminate|].
  pose proof (Write_header_row (NewConverter people) bytes_Buffer) as H.
  cbv zeta in H.
  change (rows_ColumnTypes (rows (NewConverter people)))
    with (@inr error _ people_columns) in H.
  cbv beta iota in H. destruct H as (_ & _ & H).
  apply H. discriminate.
Defined.

Lemma stringify_nil_empty_witness :
  let c := NewConverter people_nick in
  let values := [VString "Alice"; VNil; VInt64 1] in
  stringifyRow c nick_columns values = inr ["Alice"; ""; "1"] /\
  1 < List.length nick_columns /\
  nth_error values 1 = Some VNil /\
  nth_error ["Alice"; ""; "1"] 1 = Some "".
Proof.
  split; [reflexivity|]. split; [simpl; lia|]. split; [reflexivity|].
  apply (proj2 (stringify_nil_empty (NewConverter people_nick)
                  (mkColumnType "nickname" "NULLSTRING"))
           nick_columns [VString "Alice"; VNil; VInt64 1]).
  - reflexivity.
  - simpl; lia.
  - reflexivity.
Defined.



Lemma post_processor_rows_witness :
  let c := SetRowPostProcessor (NewConverter people) (Some keep_first) in
  let r := Write c bytes_Buffer in
  let st := res_state r in
  rows_ColumnTypes (rows c) = inr people_columns /\
  rowPostProcessor c = Some keep_first /\
  res_exit r = ExitEnd /\
  st_calls st = stringifiedRows c people_columns (rows_pending (rows c)) /\
  List.length (st_calls st) = List.length (rows_pending (rows c)) /\
  emitted (ops (st_csv st)) =
    headerRows c people_columns ++ emitOf keep_first people_columns (st_calls st).
Proof.
  split; [reflexivity|]. split; [reflexivity|]. split; [reflexivity|].
  apply (proj1 (post_processor_rows
                  (SetRowPostProcessor (NewConverter people) (Some keep_first))
                  bytes_Buffer people_columns eq_refl) keep_first eq_refl).
  reflexivity.
Defined.

Lemma Write_exhausted_witness :
  let c := NewConverter people in
  let r := Write c flush_fails in
  let l := ops (st_csv (res_state r)) in
  res_exit r = ExitEnd /\
  res_err r = rows_Err (rows c) /\
  st_rest (res_state r) = [] /\
  (exists before,
     l = before ++ [OpFlush] /\ count_flush before = 0 /\
     werr (st_csv (res_state r)) = flush_err flush_fails before) /\
  delivered l = emitted l /\
  buffered l = [].
Proof.
  split; [reflexivity|].
  apply (Write_exhausted (NewConverter people) flush_fails).
  reflexivity.
Defined.

(** C7 as it is stated fails: the second row of [broken_second] cannot be
    scanned, [Write] returns the scan error, and the header and the first
    row stay in the buffer of the csv.Writer without a flush. *)
Lemma flush_skipped_on_scan_error :
  let r := Write (NewConverter broken_second) bytes_Buffer in
  let l := ops (st_csv (res_state r)) in
  res_exit r = ExitScan /\
  res_err r = Some (ErrOther "sql: Rows are closed") /\
  count_flush l = 0 /\
  delivered l = [] /\
  buffered l = [["name"; "age"; "bdate"];
                ["Alice"; "1"; "1973-11-29 21:33:09 +0000 UTC"]].
Proof. vm_compute. repeat split; reflexivity. Qed.

Lemma flush_only_at_end_witness :
  let c := NewConverter people in
  let r := Write c bytes_Buffer in
  (exists before,
     ops (st_csv (res_state r)) = before ++ [OpFlush] /\
     count_flush before = 0) /\
  res_err (Write c flush_fails) = res_err r /\
  count_flush (ops (st_csv (res_state
     (Write (NewConverter broken_second) bytes_Buffer)))) = 0.
Proof.
  split; [|split].
  - exact (proj1 (flush_only_at_end (NewConverter people) bytes_Buffer)).
  - exact (proj1 (proj2 (flush_only_at_end (NewConverter people) bytes_Buffer)
                    (flush_err flush_fails))).
  - exact (proj1 (flush_only_at_end (NewConverter broken_second) bytes_Buffer)).
Defined.

(** C9 as it is stated fails: with the one-name override the header row
    has one field and the data row of [people] has three. *)
Lemma override_width_mismatch :
  let c := with_headers (NewConverter people) ["only"] in
  let out := emitted (ops (st_csv (res_state (Write c bytes_Buffer)))) in
  rowPostProcessor c = None /\
  out = [["only"]; ["Alice"; "1"; "1973-11-29 21:33:09 +0000 UTC"]] /\
  ~ Forall (fun row => List.length row = List.length (hd [] out)) (tl out).
Proof.
  vm_compute. repeat split; try reflexivity.
  intros H. inversion H as [|x l Hx Hl]. discriminate Hx.
Qed.

Lemma header_data_widths_witness :
  let c := with_WriteHeaders (with_headers (NewConverter people) ["only"]) false in
  let r := Write c bytes_Buffer in
  rows_ColumnTypes (rows c) = inr people_columns /\
  rowPostProcessor c = None /\
  exists hdr data,
    emitted (ops (st_csv (res_state r))) = hdr ++ data /\
    (res_exit r <> ExitHeaders -> hdr = []) /\
    Forall (fun row => List.length row = List.length people_columns) data /\
    List.length ["only"] = List.length (Headers c).
Proof.
  split; [reflexivity|]. split; [reflexivity|].
  destruct (header_data_widths
              (with_WriteHeaders (with_headers (NewConverter people) ["only"])
                 false)
              bytes_Buffer people_columns eq_refl)
    as (hdr & data & Hout & _ & Hh & Hd & Hl & _).
  exists hdr, data. split; [exact Hout|]. split; [exact Hh|].
  split; [apply Hd; reflexivity|exact Hl].
Defined.

(** ** The further properties at the fixtures *)

Lemma people_rowsOK (c : Converter) :
  rowsOK c people_columns [inr alice].
Proof.
  unfold rowsOK. constructor; [|constructor].
  unfold stringified. simpl.
  destruct (negb (TimeFormat c =? "")%string); discriminate.
Defined.

Lemma Write_nil_complete_witness :
  let c := NewConverter people in
  let r := Write c bytes_Buffer in
  res_err r = None /\
  exists columns,
    rows_ColumnTypes (rows c) = inr columns /\
    rows_Err (rows c) = None /\
    res_exit r = ExitEnd /\
    st_rest (res_state r) = [] /\
    rowsOK c columns (rows_pending (rows c)) /\
    ops (st_csv (res_state r)) =
      map OpWrite (headerRows c columns ++
                   dataRows c columns (rows_pending (rows c))) ++ [OpFlush].
Proof.
  split; [reflexivity|].
  apply (Write_nil_complete (NewConverter people) bytes_Buffer).
  reflexivity.
Defined.

Lemma Write_succeeds_witness :
  let c := NewConverter people_interrupted in
  let r := Write c bytes_Buffer in
  let l := ops (st_csv (res_state r)) in
  rows_ColumnTypes (rows c) = inr people_columns /\
  validDelim (commaOf c) = true /\
  res_exit r = ExitEnd /\
  res_err r = rows_Err (rows c) /\
  emitted l =
    headerRows c people_columns ++
    dataRows c people_columns (rows_pending (rows c)) /\
  delivered l = emitted l /\
  buffered l = [] /\
  st_calls (res_state r) =
    processorCalls c people_columns (rows_pending (rows c)).
Proof.
  split; [reflexivity|]. split; [reflexivity|].
  apply (Write_succeeds (NewConverter people_interrupted) bytes_Buffer
           people_columns).
  - reflexivity.
  - apply people_rowsOK.
  - reflexivity.
  - intros done record. reflexivity.
Defined.

Lemma column_types_error_witness :
  let c := NewConverter no_metadata in
  let err := ErrOther "sql: Rows are closed" in
  rows_ColumnTypes (rows c) = inl err /\
  res_err (Write c bytes_Buffer) = Some err /\
  sr_err (WriteString c) = Some err /\
  fst (String_ c) = "" /\
  fr_err (WriteFile c "out.csv") = Some err /\
  fr_file (WriteFile c "out.csv") =
    Some (mkHandle (mkFile bytes_Buffer (fun _ => None)) 1).
Proof.
  pose proof (column_types_error (NewConverter no_metadata) bytes_Buffer
                (ErrOther "sql: Rows are closed") eq_refl)
    as (Hw & Hs & Hstr & Hf).
  split; [reflexivity|]. split; [apply Hw|]. split; [exact Hs|].
  split; [exact Hstr|].
  apply (Hf "out.csv" (mkFile bytes_Buffer (fun _ => None))). reflexivity.
Defined.

Lemma scan_error_witness :
  let c := NewConverter short_row in
  let r := Write c bytes_Buffer in
  rows_ColumnTypes (rows c) = inr people_columns /\
  res_exit r = ExitScan /\
  exists pre cur e,
    rows_pending (rows c) = pre ++ cur :: st_rest (res_state r) /\
    res_err r = Some e /\
    (cur = inl e \/
     exists values,
       cur = inr values /\
       List.length values <> List.length people_columns /\
       e = ErrScanArgs (List.length values) (List.length people_columns)) /\
    rowsOK c people_columns pre /\
    ops (st_csv (res_state r)) =
      map OpWrite (headerRows c people_columns ++ dataRows c people_columns pre).
Proof.
  split; [reflexivity|]. split; [reflexivity|].
  apply (scan_error (NewConverter short_row) bytes_Buffer people_columns).
  - reflexivity.
  - reflexivity.
Defined.

Lemma row_write_error_witness :
  let c := with_WriteHeaders (with_Delimiter (NewConverter people) 34%Z) false in
  let r := Write c bytes_Buffer in
  rows_ColumnTypes (rows c) = inr people_columns /\
  res_exit r = ExitWriteRow /\
  exists pre cur row record e,
    rows_pending (rows c) = pre ++ cur :: st_rest (res_state r) /\
    res_err r = Some e /\
    stringified c people_columns cur = Some row /\
    postProcessed c people_columns row = Some record /\
    (validDelim (commaOf c) = false /\ e = ErrInvalidDelim \/
     validDelim (commaOf c) = true /\
     write_err bytes_Buffer
       (map OpWrite (headerRows c people_columns ++
                     dataRows c people_columns pre)) record
     = Some e) /\
    ops (st_csv (res_state r)) =
      map OpWrite (headerRows c people_columns ++
                   dataRows c people_columns pre) /\
    st_calls (res_state r) = processorCalls c people_columns (pre ++ [cur]).
Proof.
  split; [reflexivity|]. split; [reflexivity|].
  apply (row_write_error
           (with_WriteHeaders (with_Delimiter (NewConverter people) 34%Z) false)
           bytes_Buffer people_columns).
  - reflexivity.
  - reflexivity.
Defined.

Lemma header_write_error_witness :
  let c := NewConverter people in
  let r := Write c read_only in
  rows_ColumnTypes (rows c) = inr people_columns /\
  res_exit r = ExitHeaders /\
  WriteHeaders c = true /\
  exists e,
    res_err r = Some e /\
    (validDelim (commaOf c) = false /\ e = ErrInvalidDelim \/
     validDelim (commaOf c) = true /\
     write_err read_only []
       match Headers c with
       | [] => map Name people_columns
       | _ :: _ => Headers c
       end = Some e) /\
    ops (st_csv (res_state r)) = [] /\
    st_rest (res_state r) = rows_pending (rows c) /\
    st_calls (res_state r) = [].
Proof.
  split; [reflexivity|]. split; [reflexivity|].
  apply (header_write_error (NewConverter people) read_only people_columns).
  - reflexivity.
  - reflexivity.
Defined.

Lemma time_format_only_for_times_witness :
  let c := with_TimeFormat (NewConverter people) "3:04PM" in
  let column := mkColumnType "bdate" "DATETIME" in
  TimeFormat c <> "" /\
  stringify c column (VTime 123456789%Z) = inr "9:33PM" /\
  stringify c column (VInt64 1) = stringify (NewConverter people) column (VInt64 1) /\
  stringify c column (VString "Alice") = inr "Alice".
Proof.
  pose proof (time_format_only_for_times
                (with_TimeFormat (NewConverter people) "3:04PM")
                (mkColumnType "bdate" "DATETIME"))
    as (Hset & _ & Hother & Hplain).
  split; [discriminate|]. split; [|split].
  - apply (Hset 123456789%Z). discriminate.
  - apply (Hother (VInt64 1) (NewConverter people)). intros t. discriminate.
  - apply (Hplain (VString "Alice")); intros; discriminate.
Defined.

Lemma only_identifiers_fail_witness :
  let c := NewConverter people in
  (forall column, In column people_columns ->
     DatabaseTypeName column <> "UNIQUEIDENTIFIER") /\
  rows_ColumnTypes (rows c) = inr people_columns /\
  res_exit (Write c full_after_one) <> ExitUUID.
Proof.
  assert (Hno : forall column, In column people_columns ->
                  DatabaseTypeName column <> "UNIQUEIDENTIFIER").
  { simpl. intros column [H|[H|[H|[]]]]; subst column; discriminate. }
  split; [exact Hno|]. split; [reflexivity|].
  apply (proj2 (only_identifiers_fail (NewConverter people) full_after_one
                  people_columns) Hno).
  reflexivity.
Defined.

Lemma omitting_processor_witness :
  let c := SetRowPostProcessor (NewConverter people) (Some omit_all) in
  let r := Write c bytes_Buffer in
  rows_ColumnTypes (rows c) = inr people_columns /\
  rowPostProcessor c = Some omit_all /\
  (forall row, fst (omit_all row people_columns) = false) /\
  (res_exit r = ExitHeaders /\ emitted (ops (st_csv (res_state r))) = [] \/
   res_exit r <> ExitHeaders /\
   emitted (ops (st_csv (res_state r))) = headerRows c people_columns) /\
  res_exit r <> ExitWriteRow /\
  (res_exit r = ExitEnd ->
   List.length (st_calls (res_state r)) = List.length (rows_pending (rows c))).
Proof.
  split; [reflexivity|]. split; [reflexivity|].
  split; [intros row; reflexivity|].
  apply (omitting_processor
           (SetRowPostProcessor (NewConverter people) (Some omit_all))
           bytes_Buffer people_columns omit_all).
  - reflexivity.
  - reflexivity.
  - intros row. reflexivity.
Defined.

Lemma processor_row_width_witness :
  let c := SetRowPostProcessor (NewConverter people) (Some keep_first) in
  rows_ColumnTypes (rows c) = inr people_columns /\
  Forall (fun row => List.length row = List.length people_columns)
    (st_calls (res_state (Write c bytes_Buffer))).
Proof.
  split; [reflexivity|].
  apply (processor_row_width
           (SetRowPostProcessor (NewConverter people) (Some keep_first))
           bytes_Buffer people_columns).
  reflexivity.
Defined.

Lemma invalid_delimiter_writes_nothing_witness :
  let c := with_Delimiter (NewConverter people) 34%Z in
  let r := Write c bytes_Buffer in
  validDelim (commaOf c) = false /\
  emitted (ops (st_csv (res_state r))) = [] /\
  res_err r = Some ErrInvalidDelim /\ res_exit r = ExitHeaders /\
  st_rest (res_state r) = rows_pending (rows c).
Proof.
  pose proof (invalid_delimiter_writes_nothing
                (with_Delimiter (NewConverter people) 34%Z) bytes_Buffer
                eq_refl) as (Hnone & Hhdr).
  split; [reflexivity|]. split; [exact Hnone|].
  apply (Hhdr people_columns); reflexivity.
Defined.



Lemma WriteFile_like_WriteString_witness :
  let c := NewConverter people in
  let file := mkFile bytes_Buffer (fun _ => None) in
  os_Create "out.csv" = inr file /\
  (forall done record, write_err (file_writer file) done record = None) /\
  exists w,
    fr_write (WriteFile c "out.csv") = Some w /\
    res_err w = sr_err (WriteString c) /\
    res_exit w = res_exit (sr_write (WriteString c)) /\
    ops (st_csv (res_state w)) =
      ops (st_csv (res_state (sr_write (WriteString c)))) /\
    (forall e, sr_err (WriteString c) = Some e ->
               fr_err (WriteFile c "out.csv") = Some e).
Proof.
  split; [reflexivity|]. split; [intros done record; reflexivity|].
  apply (WriteFile_like_WriteString (NewConverter people) "out.csv"
           (mkFile bytes_Buffer (fun _ => None))).
  - reflexivity.
  - intros done record. reflexivity.
Defined.

Lemma terminal_error_reported_witness :
  let c := NewConverter people_interrupted in
  let e := ErrOther "driver: bad connection" in
  rows_Err (rows c) = Some e /\
  (exists e', res_err (Write c bytes_Buffer) = Some e') /\
  (res_exit (Write c bytes_Buffer) = ExitEnd ->
   res_err (Write c bytes_Buffer) = Some e) /\
  (exists e', sr_err (WriteString c) = Some e') /\
  fst (String_ c) = "".
Proof.
  split; [reflexivity|].
  apply (terminal_error_reported (NewConverter people_interrupted)
           bytes_Buffer (ErrOther "driver: bad connection")).
  reflexivity.
Defined.

Lemma String_of_clean_source_witness :
  let c := NewConverter people in
  rows_ColumnTypes (rows c) = inr people_columns /\
  rows_Err (rows c) = None /\
  validDelim (commaOf c) = true /\
  sr_err (WriteString c) = None /\
  fst (String_ c) = sr_text (WriteString c) /\
  sr_text (WriteString c) =
    Buffer_String (commaOf c)
      (map OpWrite (headerRows c people_columns ++
                    dataRows c people_columns (rows_pending (rows c)))
       ++ [OpFlush]).
Proof.
  split; [reflexivity|]. split; [reflexivity|]. split; [reflexivity|].
  apply (String_of_clean_source (NewConverter people) people_columns).
  - reflexivity.
  - apply people_rowsOK.
  - reflexivity.
  - reflexivity.
Defined.

Lemma record_count_witness :
  let c := NewConverter people in
  let r := Write c bytes_Buffer in
  let n := List.length (emitted (ops (st_csv (res_state r)))) in
  rows_ColumnTypes (rows c) = inr people_columns /\
  rowPostProcessor c = None /\ res_exit r = ExitEnd /\
  n <= 1 + List.length (rows_pending (rows c)) /\
  n = 1 + List.length (rows_pending (rows c)).
Proof.
  pose proof (record_count (NewConverter people) bytes_Buffer people_columns
                eq_refl) as (Hle & Heq).
  split; [reflexivity|]. split; [reflexivity|]. split; [reflexivity|].
  split; [exact Hle|]. apply Heq; reflexivity.
Defined.

Lemma empty_source_witness :
  let c := NewConverter nobody in
  let r := Write c bytes_Buffer in
  rows_ColumnTypes (rows c) = inr people_columns /\
  rows_pending (rows c) = [] /\
  st_calls (res_state r) = [] /\
  (res_exit r = ExitHeaders \/
   res_exit r = ExitEnd /\ res_err r = rows_Err (rows c) /\
   ops (st_csv (res_state r)) =
     map OpWrite (headerRows c people_columns) ++ [OpFlush]).
Proof.
  split; [reflexivity|]. split; [reflexivity|].
  apply (empty_source (NewConverter nobody) bytes_Buffer people_columns).
  - reflexivity.
  - reflexivity.
Defined.

Lemma package_Write_defaults_witness :
  let w := pkg_Write bytes_Buffer people in
  rows_ColumnTypes people = inr people_columns /\
  Comma (st_csv (res_state w)) = 44%Z /\
  st_calls (res_state w) = [] /\
  (res_exit w <> ExitHeaders ->
   exists data,
     emitted (ops (st_csv (res_state w))) = map Name people_columns :: data /\
     Forall (fun row => List.length row = List.length people_columns) data).
Proof.
  split; [reflexivity|].
  apply (package_Write_defaults bytes_Buffer people people_columns).
  reflexivity.
Defined.
